(** * DQN components: replay buffer, exploration schedule, step collector

    A shallow embedding of the Python code of the "DQN Components" notebook:
    the class [ReplayBuffer] (constructor, [store_transition], [sample]),
    [epsilon_greedy_action_selection], [collect_one_step] and
    [linear_schedule], followed by the properties proved about them.

    Python integers are [Z], Python floats are IEEE-754 binary64 values
    ([float] of the Floats library), numpy arrays are lists of rows indexed
    along their first axis, exceptions are explicit results, and the
    attributes of the mutable buffer object are threaded through a small
    state-and-exception monad. *)

From Stdlib Require Import ZArith Lia Bool List Floats QArith String.
From stdpp Require Import base list gmap.

Set Warnings "-inexact-float".
Local Open Scope Z_scope.

(** ** Python results *)

Inductive exception : Set :=
| ValueError
| IndexError
| OverflowError
| ZeroDivisionError.

(** A call either returns a value or raises. *)
Inductive outcome (A : Type) : Type :=
| Returns (a : A)
| Raises (e : exception).

Arguments Returns {A} a.
Arguments Raises {A} e.

#[global] Instance outcome_ret : MRet outcome := @Returns.

#[global] Instance outcome_bind : MBind outcome :=
  fun A B (k : A -> outcome B) (m : outcome A) =>
    match m with
    | Returns a => k a
    | Raises e => Raises e
    end.

Definition returned {A} (o : outcome A) : bool :=
  match o with
  | Returns _ => true
  | Raises _ => false
  end.

(** ** The parts of numpy the notebook uses *)

Module np.

(** [np.zeros((n, ...), dtype)]: [n] rows holding the zero of the dtype;
    a negative dimension raises ValueError. Memory is taken as unbounded. *)
Definition zeros {A} (n : Z) (zero_row : A) : outcome (list A) :=
  if n <? 0 then Raises ValueError
  else Returns (replicate (Z.to_nat n) zero_row).

(** Resolution of an integer index along an axis of length [len]:
    [0 <= i < len] addresses row [i], [-len <= i < 0] addresses row
    [len + i], anything else raises IndexError. *)
Definition axis_index (len : nat) (i : Z) : outcome nat :=
  if (0 <=? i) && (i <? Z.of_nat len) then Returns (Z.to_nat i)
  else if (- Z.of_nat len <=? i) && (i <? 0) then Returns (Z.to_nat (Z.of_nat len + i))
  else Raises IndexError.

(** [arr[i] = v] *)
Definition setitem {A} (arr : list A) (i : Z) (v : A) : outcome (list A) :=
  k ← axis_index (length arr) i;
  Returns (<[k := v]> arr).

(** [arr[i]] *)
Definition getitem {A} (arr : list A) (i : Z) : outcome A :=
  k ← axis_index (length arr) i;
  match arr !! k with
  | Some row => Returns row
  | None => Raises IndexError
  end.

(** [arr[indices]] for an integer array [indices]: the rows at these
    indices, in order; the result has one row per index. *)
Fixpoint index_rows {A} (arr : list A) (indices : list Z) : outcome (list A) :=
  match indices with
  | [] => Returns []
  | i :: rest =>
      row ← getitem arr i;
      rows ← index_rows arr rest;
      Returns (row :: rows)
  end.

(** The action array has dtype int64 (the dtype of [spaces.Discrete]).
    Writing a Python integer into an int64 cell keeps the value when it is
    representable and raises OverflowError otherwise. *)
Definition int64_min : Z := - 2 ^ 63.
Definition int64_max : Z := 2 ^ 63 - 1.

Definition is_int64 (v : Z) : bool := (int64_min <=? v) && (v <=? int64_max).

Definition as_int64 (v : Z) : outcome Z :=
  if is_int64 v then Returns v else Raises OverflowError.

(** [np.minimum(a, b)] on scalars: the smaller one, NaN-propagating. *)
Definition minimum (a b : float) : float :=
  if (a <? b)%float || is_nan a then a else b.

Module random.

(** The global generator: an arbitrary infinite stream of raw draws and the
    number of draws consumed so far. Quantifying over all streams covers
    every result the real generator can give. *)
Record RandomState := {
  bits : nat -> Z;
  consumed : nat
}.

Definition advance (k : nat) (rs : RandomState) : RandomState :=
  {| bits := bits rs; consumed := (consumed rs + k)%nat |}.

(** [np.random.randint(low, high, size)], as of numpy 1.26, the version the
    notebook installs. A request for zero values is answered with an empty
    array before the bounds are looked at; otherwise [low >= high] raises
    ValueError, and so does a negative size. Each value is drawn from
    [[low, high)]. The bounds of the index dtype are not modelled. *)
Definition randint (low high size : Z) (rs : RandomState)
  : outcome (list Z) * RandomState :=
  if size =? 0 then (Returns [], rs)
  else if high <=? low then (Raises ValueError, rs)
  else if size <? 0 then (Raises ValueError, rs)
  else
    let k := Z.to_nat size in
    (Returns (map (fun j => low + bits rs (consumed rs + j)%nat mod (high - low))
                  (seq 0 k)),
     advance k rs).

(** [np.random.rand()]: a float in [[0, 1)] built from 53 raw bits. *)
Definition rand (rs : RandomState) : float * RandomState :=
  (SF2Prim (binary_normalize prec emax (bits rs (consumed rs) mod 2 ^ 53) (-53) false),
   advance 1 rs).

End random.

End np.

(** ** gymnasium spaces *)

Module spaces.

(** A [Box] observation space fixes the shape and dtype of observations.
    Observations of that shape and dtype form the type [Obs]; the space
    enters the code through the all-zero observation it determines. *)
Record Box (Obs : Type) := {
  zero_observation : Obs
}.

(** A [Discrete] action space with [n] actions, numbered from 0. *)
Record Discrete := {
  n : Z
}.

End spaces.

Arguments spaces.zero_observation {Obs} _.

(** ** dataclass ReplayBufferSamples *)

Module ReplayBufferSamples.

Record t (Obs F32 : Type) := {
  observations : list Obs;
  next_observations : list Obs;
  actions : list (list Z);
  rewards : list F32;
  terminateds : list bool
}.

Arguments observations {Obs F32} _.
Arguments next_observations {Obs F32} _.
Arguments actions {Obs F32} _.
Arguments rewards {Obs F32} _.
Arguments terminateds {Obs F32} _.

End ReplayBufferSamples.

(** ** class ReplayBuffer *)

Module ReplayBuffer.

Section Buffer.

(** [Obs]: observations of the configured shape and dtype. [Reward]: Python
    floats as passed by the caller. [F32]: cells of dtype float32, with
    numpy's coercion [as_float32] of a Python float into such a cell. *)
Context {Obs Reward F32 : Type}.
Variable as_float32 : Reward -> F32.
Variable float32_zero : F32.

Record t := {
  current_idx : Z;
  buffer_size : Z;
  is_full : bool;
  observation_space : spaces.Box Obs;
  action_space : spaces.Discrete;
  observations : list Obs;
  next_observations : list Obs;
  actions : list (list Z);
  rewards : list F32;
  terminateds : list bool
}.

Definition action_dim : Z := 1.

(** [ReplayBuffer(buffer_size, observation_space, action_space)] *)
Definition __init__ (buffer_size : Z) (observation_space : spaces.Box Obs)
    (action_space : spaces.Discrete) : outcome t :=
  observations ← np.zeros buffer_size (spaces.zero_observation observation_space);
  next_observations ← np.zeros buffer_size (spaces.zero_observation observation_space);
  actions ← np.zeros buffer_size (replicate (Z.to_nat action_dim) 0);
  rewards ← np.zeros buffer_size float32_zero;
  terminateds ← np.zeros buffer_size false;
  Returns {|
    current_idx := 0;
    buffer_size := buffer_size;
    is_full := false;
    observation_space := observation_space;
    action_space := action_space;
    observations := observations;
    next_observations := next_observations;
    actions := actions;
    rewards := rewards;
    terminateds := terminateds
  |}.

(** *** Attribute updates of the buffer object *)

Definition set_current_idx (v : Z) (self : t) : t :=
  {| current_idx := v; buffer_size := buffer_size self; is_full := is_full self;
     observation_space := observation_space self; action_space := action_space self;
     observations := observations self; next_observations := next_observations self;
     actions := actions self; rewards := rewards self; terminateds := terminateds self |}.

Definition set_is_full (v : bool) (self : t) : t :=
  {| current_idx := current_idx self; buffer_size := buffer_size self; is_full := v;
     observation_space := observation_space self; action_space := action_space self;
     observations := observations self; next_observations := next_observations self;
     actions := actions self; rewards := rewards self; terminateds := terminateds self |}.

Definition set_observations (v : list Obs) (self : t) : t :=
  {| current_idx := current_idx self; buffer_size := buffer_size self; is_full := is_full self;
     observation_space := observation_space self; action_space := action_space self;
     observations := v; next_observations := next_observations self;
     actions := actions self; rewards := rewards self; terminateds := terminateds self |}.

Definition set_next_observations (v : list Obs) (self : t) : t :=
  {| current_idx := current_idx self; buffer_size := buffer_size self; is_full := is_full self;
     observation_space := observation_space self; action_space := action_space self;
     observations := observations self; next_observations := v;
     actions := actions self; rewards := rewards self; terminateds := terminateds self |}.

Definition set_actions (v : list (list Z)) (self : t) : t :=
  {| current_idx := current_idx self; buffer_size := buffer_size self; is_full := is_full self;
     observation_space := observation_space self; action_space := action_space self;
     observations := observations self; next_observations := next_observations self;
     actions := v; rewards := rewards self; terminateds := terminateds self |}.

Definition set_rewards (v : list F32) (self : t) : t :=
  {| current_idx := current_idx self; buffer_size := buffer_size self; is_full := is_full self;
     observation_space := observation_space self; action_space := action_space self;
     observations := observations self; next_observations := next_observations self;
     actions := actions self; rewards := v; terminateds := terminateds self |}.

Definition set_terminateds (v : list bool) (self : t) : t :=
  {| current_idx := current_idx self; buffer_size := buffer_size self; is_full := is_full self;
     observation_space := observation_space self; action_space := action_space self;
     observations := observations self; next_observations := next_observations self;
     actions := actions self; rewards := rewards self; terminateds := v |}.

(** *** Methods: state of [self] plus exceptions

    A method body is run on the object and yields its result together with
    the object as the body left it; an exception keeps the attribute writes
    made before it. *)

Definition method (A : Type) : Type := t -> outcome A * t.

#[global] Instance method_ret : MRet method :=
  fun A (a : A) self => (Returns a, self).

#[global] Instance method_bind : MBind method :=
  fun A B (k : A -> method B) (m : method A) self =>
    match m self with
    | (Returns a, self') => k a self'
    | (Raises e, self') => (Raises e, self')
    end.

Definition attr {A} (get : t -> A) : method A :=
  fun self => (Returns (get self), self).

Definition assign (set : t -> t) : method unit :=
  fun self => (Returns tt, set self).

Definition lift {A} (o : outcome A) : method A :=
  fun self => (o, self).

(** [self.<array>[self.current_idx] = row] *)
Definition store_row {A} (get : t -> list A) (set : list A -> t -> t) (row : A)
  : method unit :=
  arr ← attr get;
  i ← attr current_idx;
  arr' ← lift (np.setitem arr i row);
  assign (set arr').

(** [self.store_transition(obs, next_obs, action, reward, terminated)] *)
Definition store_transition (obs next_obs : Obs) (action : Z) (reward : Reward)
    (terminated : bool) : method unit :=
  store_row observations set_observations obs;;
  store_row next_observations set_next_observations next_obs;;
  cell ← lift (np.as_int64 action);
  store_row actions set_actions (replicate (Z.to_nat action_dim) cell);;
  store_row rewards set_rewards (as_float32 reward);;
  store_row terminateds set_terminateds terminated;;
  i ← attr current_idx;
  assign (set_current_idx (i + 1));;
  i ← attr current_idx;
  size ← attr buffer_size;
  if i =? size then
    assign (set_current_idx 0);;
    assign (set_is_full true)
  else mret tt.

(** The local [upper_bound] of [sample]: the number of rows that may be
    drawn from. *)
Definition upper_bound (self : t) : Z :=
  if is_full self then buffer_size self else current_idx self.

(** The local [batch_indices] of [sample]. *)
Definition batch_indices (batch_size : Z) (self : t) (rs : np.random.RandomState)
  : outcome (list Z) * np.random.RandomState :=
  np.random.randint 0 (upper_bound self) batch_size rs.

(** [self.sample(batch_size)]: reads the buffer, advances the generator. *)
Definition sample (batch_size : Z) (self : t) (rs : np.random.RandomState)
  : outcome (ReplayBufferSamples.t Obs F32) * np.random.RandomState :=
  let (drawn, rs') := batch_indices batch_size self rs in
  (indices ← drawn;
   obs ← np.index_rows (observations self) indices;
   next_obs ← np.index_rows (next_observations self) indices;
   acts ← np.index_rows (actions self) indices;
   rews ← np.index_rows (rewards self) indices;
   terms ← np.index_rows (terminateds self) indices;
   Returns {|
     ReplayBufferSamples.observations := obs;
     ReplayBufferSamples.next_observations := next_obs;
     ReplayBufferSamples.actions := acts;
     ReplayBufferSamples.rewards := rews;
     ReplayBufferSamples.terminateds := terms
   |},
   rs').

End Buffer.

End ReplayBuffer.

(** ** Environment and Q-network interfaces *)

(** What the code asks of a gymnasium environment with state [E]:
    [env.action_space], [env.action_space.sample()] (the space owns its
    generator, kept in the environment state), [env.step(action)] and
    [env.reset()]. *)
Class Env (E Obs RawReward Info : Type) := {
  env_action_space : E -> spaces.Discrete;
  env_action_space_sample : E -> Z * E;
  env_step : Z -> E -> (Obs * RawReward * bool * bool * Info) * E;
  env_reset : E -> (Obs * Info) * E
}.

(** What the code asks of a Q-network: the index of the largest Q-value of
    one observation, [q_net(th.as_tensor(observation[np.newaxis, ...]))
    .argmax().item()]. The network itself is a black box. *)
Class QNetwork (Q Obs : Type) := {
  q_argmax_item : Q -> Obs -> Z
}.

(** ** Action selection and data collection *)

Section Collector.

Context {E Obs RawReward Reward F32 Info Q : Type}.
Context `{!Env E Obs RawReward Info} `{!QNetwork Q Obs}.

(** [float(reward)] *)
Variable float_ : RawReward -> Reward.
Variable as_float32 : Reward -> F32.

(** The line printed for the ["episode"] entry of [info], when it has one. *)
Variable episode_line : Info -> option (list Byte.byte).

(** [epsilon_greedy_action_selection(q_net, observation, exploration_rate,
    action_space)], the action space being that of [env]. *)
Definition epsilon_greedy_action_selection (q_net : Q) (observation : Obs)
    (exploration_rate : float) (env : E) (rs : np.random.RandomState)
  : Z * E * np.random.RandomState :=
  let (coin, rs') := np.random.rand rs in
  if (coin <? exploration_rate)%float then
    let (action, env') := env_action_space_sample env in
    (action, env', rs')
  else
    (q_argmax_item q_net observation, env, rs').

(** Everything [collect_one_step] reads or writes. *)
Record World := {
  env : E;
  np_random : np.random.RandomState;
  replay_buffer : @ReplayBuffer.t Obs F32;
  stdout : list (list Byte.byte)
}.

(** [collect_one_step(env, q_net, replay_buffer, obs, exploration_rate,
    verbose)] *)
Definition collect_one_step (q_net : Q) (obs : Obs) (exploration_rate : float)
    (verbose : Z) (w : World) : outcome Obs * World :=
  let '(action, env1, rs1) :=
    epsilon_greedy_action_selection q_net obs exploration_rate (env w) (np_random w) in
  let '((next_obs, reward, terminated, truncated, info), env2) := env_step action env1 in
  match ReplayBuffer.store_transition as_float32 obs next_obs action (float_ reward)
          terminated (replay_buffer w) with
  | (Raises exn, buf) =>
      (Raises exn,
       {| env := env2; np_random := rs1; replay_buffer := buf; stdout := stdout w |})
  | (Returns _, buf) =>
      let obs := next_obs in
      let out :=
        match episode_line info with
        | Some line => if verbose >=? 1 then stdout w ++ [line] else stdout w
        | None => stdout w
        end in
      let done := terminated || truncated in
      if done then
        let '((obs, _), env3) := env_reset env2 in
        (Returns obs,
         {| env := env3; np_random := rs1; replay_buffer := buf; stdout := out |})
      else
        (Returns obs,
         {| env := env2; np_random := rs1; replay_buffer := buf; stdout := out |})
  end.

End Collector.

(** ** Exploration schedule *)

(** The least magnitude whose nearest binary64 value is no longer finite:
    half-way between the largest float, [2^1024 - 2^971], and [2^1024]. *)
Definition float_overflow_bound : Z := 2 ^ 1024 - 2 ^ 970.

(** [float(n)] for a Python integer: the nearest binary64 value (ties to
    even); OverflowError when that would exceed the largest finite float. *)
Definition float_of_int (n : Z) : outcome float :=
  if float_overflow_bound <=? Z.abs n then Raises OverflowError
  else Returns (SF2Prim (binary_normalize prec emax n 0 false)).

(** [a / b] for a float [a] and an integer [b]: [b] is converted to a float,
    a zero divisor raises ZeroDivisionError. *)
Definition truediv (a : float) (b : Z) : outcome float :=
  b' ← float_of_int b;
  if b =? 0 then Raises ZeroDivisionError else Returns (a / b')%float.

(** [linear_schedule(initial_value, final_value, current_step, max_steps)] *)
Definition linear_schedule (initial_value final_value : float)
    (current_step max_steps : Z) : outcome float :=
  step ← float_of_int current_step;
  progress ← truediv step max_steps;
  let progress := np.minimum progress 1 in
  let current_value := (initial_value + progress * (final_value - initial_value))%float in
  Returns current_value.

(** The schedule in the words of its specification:
    [progress = min(step / max_steps, 1.0)], the value being
    [initial + progress * (final - initial)]; the integers are converted to
    binary64, every operation is a binary64 one and [min] is numpy's. *)
Definition schedule_formula (initial final : float) (step max_steps : Z) : float :=
  let to_float (k : Z) := SF2Prim (binary_normalize prec emax k 0 false) in
  let progress := np.minimum (to_float step / to_float max_steps)%float 1 in
  (initial + progress * (final - initial))%float.

(** * Runs of the replay buffer *)

(** ** A transition, and a run of [store_transition] calls *)

Record Transition (Obs Reward : Type) := {
  tr_obs : Obs;
  tr_next_obs : Obs;
  tr_action : Z;
  tr_reward : Reward;
  tr_terminated : bool
}.

Arguments tr_obs {Obs Reward} _.
Arguments tr_next_obs {Obs Reward} _.
Arguments tr_action {Obs Reward} _.
Arguments tr_reward {Obs Reward} _.
Arguments tr_terminated {Obs Reward} _.

Section BufferRuns.

Context {Obs Reward F32 : Type}.
Variable as_float32 : Reward -> F32.
Variable float32_zero : F32.

Abbreviation buffer := (@ReplayBuffer.t Obs F32).
Abbreviation method := (@ReplayBuffer.method Obs F32).

(** One call, on a transition record. *)
Definition store (tr : Transition Obs Reward) : method unit :=
  ReplayBuffer.store_transition as_float32
    (tr_obs tr) (tr_next_obs tr) (tr_action tr) (tr_reward tr) (tr_terminated tr).

(** The calls [store_transition(tr)] for [tr] in [trs], in order, stopping at
    the first exception. The result lists, call by call, the slot
    ([current_idx] at entry) the call wrote to. *)
Fixpoint store_all (trs : list (Transition Obs Reward)) : method (list Z) :=
  match trs with
  | [] => mret []
  | tr :: rest =>
      slot ← ReplayBuffer.attr ReplayBuffer.current_idx;
      store tr;;
      slots ← store_all rest;
      mret (slot :: slots)
  end.

(** A fresh buffer of capacity [capacity], then the stores of [trs]. *)
Definition fresh_then_store (capacity : Z) (space : spaces.Box Obs)
    (acts : spaces.Discrete) (trs : list (Transition Obs Reward))
  : outcome (list Z * buffer) :=
  self ← ReplayBuffer.__init__ float32_zero capacity space acts;
  match store_all trs self with
  | (Returns slots, self') => Returns (slots, self')
  | (Raises e, _) => Raises e
  end.

(** The action of a transition fits the int64 cells of the action array
    (every index of a discrete action set does). *)
Definition storable (tr : Transition Obs Reward) : Prop :=
  np.is_int64 (tr_action tr) = true.

(** ** The buffer's representation invariant *)

Record wf (self : buffer) : Prop := {
  wf_idx : 0 <= ReplayBuffer.current_idx self < ReplayBuffer.buffer_size self;
  wf_observations :
    Z.of_nat (length (ReplayBuffer.observations self)) = ReplayBuffer.buffer_size self;
  wf_next_observations :
    Z.of_nat (length (ReplayBuffer.next_observations self)) = ReplayBuffer.buffer_size self;
  wf_actions :
    Z.of_nat (length (ReplayBuffer.actions self)) = ReplayBuffer.buffer_size self;
  wf_rewards :
    Z.of_nat (length (ReplayBuffer.rewards self)) = ReplayBuffer.buffer_size self;
  wf_terminateds :
    Z.of_nat (length (ReplayBuffer.terminateds self)) = ReplayBuffer.buffer_size self;
  wf_action_rows :
    Forall (fun row => length row = 1%nat) (ReplayBuffer.actions self)
}.

(** The buffer a well-formed [self] becomes by one store. *)
Definition after_store (tr : Transition Obs Reward) (self : buffer) : buffer :=
  let i := Z.to_nat (ReplayBuffer.current_idx self) in
  let wraps := ReplayBuffer.current_idx self + 1 =? ReplayBuffer.buffer_size self in
  {| ReplayBuffer.current_idx := if wraps then 0 else ReplayBuffer.current_idx self + 1;
     ReplayBuffer.buffer_size := ReplayBuffer.buffer_size self;
     ReplayBuffer.is_full := if wraps then true else ReplayBuffer.is_full self;
     ReplayBuffer.observation_space := ReplayBuffer.observation_space self;
     ReplayBuffer.action_space := ReplayBuffer.action_space self;
     ReplayBuffer.observations := <[i := tr_obs tr]> (ReplayBuffer.observations self);
     ReplayBuffer.next_observations :=
       <[i := tr_next_obs tr]> (ReplayBuffer.next_observations self);
     ReplayBuffer.actions := <[i := [tr_action tr]]> (ReplayBuffer.actions self);
     ReplayBuffer.rewards := <[i := as_float32 (tr_reward tr)]> (ReplayBuffer.rewards self);
     ReplayBuffer.terminateds := <[i := tr_terminated tr]> (ReplayBuffer.terminateds self) |}.

(** [self] is a buffer of capacity [C] in the state [k] successful stores
    leave behind. *)
Definition counted (C k : Z) (self : buffer) : Prop :=
  wf self /\ ReplayBuffer.buffer_size self = C /\
  ReplayBuffer.current_idx self = k mod C /\
  ReplayBuffer.is_full self = (C <=? k).

(** The slots written by [n] stores that follow [k] earlier ones. *)
Definition slots_from (C k : Z) (n : nat) : list Z :=
  map (fun j => (k + Z.of_nat j) mod C) (seq 0 n).

(** The buffer the constructor builds for a capacity that is not negative. *)
Definition fresh (capacity : Z) (space : spaces.Box Obs) (acts : spaces.Discrete)
  : buffer :=
  let rows := Z.to_nat capacity in
  {| ReplayBuffer.current_idx := 0;
     ReplayBuffer.buffer_size := capacity;
     ReplayBuffer.is_full := false;
     ReplayBuffer.observation_space := space;
     ReplayBuffer.action_space := acts;
     ReplayBuffer.observations := replicate rows (spaces.zero_observation space);
     ReplayBuffer.next_observations := replicate rows (spaces.zero_observation space);
     ReplayBuffer.actions := replicate rows [0];
     ReplayBuffer.rewards := replicate rows float32_zero;
     ReplayBuffer.terminateds := replicate rows false |}.

(** A method body that never clears a set [is_full] flag, whether it
    returns or raises. *)
Definition keeps_full {A} (m : method A) : Prop :=
  forall self : buffer,
    ReplayBuffer.is_full self = true -> ReplayBuffer.is_full (snd (m self)) = true.

(** [rows] are the rows of [arr] at [indices], position by position. *)
Definition gathered {A} (arr : list A) (indices : list Z) (rows : list A) : Prop :=
  Forall2 (fun i row => arr !! Z.to_nat i = Some row) indices rows.

(** [batch] holds, field by field, the cells of [self] at [indices]. *)
Definition batch_of (self : buffer) (indices : list Z)
    (batch : ReplayBufferSamples.t Obs F32) : Prop :=
  gathered (ReplayBuffer.observations self) indices
    (ReplayBufferSamples.observations batch) /\
  gathered (ReplayBuffer.next_observations self) indices
    (ReplayBufferSamples.next_observations batch) /\
  gathered (ReplayBuffer.actions self) indices (ReplayBufferSamples.actions batch) /\
  gathered (ReplayBuffer.rewards self) indices (ReplayBufferSamples.rewards batch) /\
  gathered (ReplayBuffer.terminateds self) indices
    (ReplayBufferSamples.terminateds batch).

(** What [sample] returns when asked for no transition at all. *)
Definition empty_batch : ReplayBufferSamples.t Obs F32 :=
  {| ReplayBufferSamples.observations := [];
     ReplayBufferSamples.next_observations := [];
     ReplayBufferSamples.actions := [];
     ReplayBufferSamples.rewards := [];
     ReplayBufferSamples.terminateds := [] |}.

(** The five cells of slot [i]. *)
Definition slot_at (self : buffer) (i : Z)
  : option (Obs * Obs * list Z * F32 * bool) :=
  let k := Z.to_nat i in
  o ← ReplayBuffer.observations self !! k;
  o' ← ReplayBuffer.next_observations self !! k;
  a ← ReplayBuffer.actions self !! k;
  r ← ReplayBuffer.rewards self !! k;
  d ← ReplayBuffer.terminateds self !! k;
  Some (o, o', a, r, d).

End BufferRuns.

(** Shapes of the sampled arrays: a vector has shape [(rows,)], a matrix
    whose rows all have [cols] entries has shape [(rows, cols)]. *)
Definition shape_1d {A} (v : list A) : list nat := [length v].

Definition shape_2d {A} (cols : nat) (m : list (list A)) : option (list nat) :=
  if forallb (fun row => Nat.eqb (length row) cols) m
  then Some [length m; cols] else None.

(** ** A concrete instance

    Observations tagged by an integer, rewards as binary64 floats stored in
    float32 cells (round to nearest, ties to even), two actions. *)

Definition float32_of_float (x : float) : spec_float :=
  match Prim2SF x with
  | S754_finite s m e => binary_round 24 128 s m e
  | other => other
  end.

Definition demo_space : spaces.Box Z := {| spaces.zero_observation := 0 |}.

Definition demo_actions : spaces.Discrete := {| spaces.n := 2 |}.

(** The [k]-th transition of an episode, taking [action]. *)
Definition demo_transition (k action : Z) : Transition Z float :=
  {| tr_obs := k; tr_next_obs := k + 1; tr_action := action;
     tr_reward := 1%float; tr_terminated := false |}.

(** Capacity 4 and the actions 0, 1, 0, then 1, then 0. *)
Definition three_stores : list (Transition Z float) :=
  [demo_transition 0 0; demo_transition 1 1; demo_transition 2 0].

Definition four_stores : list (Transition Z float) :=
  three_stores ++ [demo_transition 3 1].

Definition five_stores : list (Transition Z float) :=
  four_stores ++ [demo_transition 4 0].

Definition demo_run (capacity : Z) (trs : list (Transition Z float))
  : outcome (list Z * @ReplayBuffer.t Z spec_float) :=
  fresh_then_store float32_of_float (S754_zero false) capacity demo_space demo_actions trs.

(** A generator state: the raw draws 3, 10, 17, ... *)
Definition demo_random : np.random.RandomState :=
  {| np.random.bits := fun k => 7 * Z.of_nat k + 3; np.random.consumed := 0 |}.

(** A toy environment: the state is a position, a step moves one to the
    right with reward 1, position 5 is terminal and the time limit cuts the
    episode at position 2; reset goes back to position 0. *)
#[global] Instance demo_env : Env Z Z float unit := {|
  env_action_space := fun _ => demo_actions;
  env_action_space_sample := fun e => (0, e);
  env_step := fun _ e => ((e + 1, 1%float, e + 1 =? 5, e + 1 =? 2, tt), e + 1);
  env_reset := fun _ => ((0, tt), 0)
|}.

(** A toy Q-network that always prefers action 1. *)
#[global] Instance demo_q_net : QNetwork unit Z := {|
  q_argmax_item := fun _ _ => 1
|}.

(** The world in which the toy environment stands at position 1 and the
    buffer of capacity 4 is fresh. *)
Definition demo_world : @World Z Z spec_float :=
  {| env := 1;
     np_random := demo_random;
     replay_buffer := fresh (S754_zero false) 4 demo_space demo_actions;
     stdout := [] |}.

(** * Further definitions: slot contents, collection loops, the grid world *)

(** ** What a slot and a batch row hold *)

Section SlotContents.

Context {Obs Reward F32 : Type}.
Variable as_float32 : Reward -> F32.
Variable float32_zero : F32.

(** The five cells a store of [tr] writes. *)
Definition cells (tr : Transition Obs Reward) : Obs * Obs * list Z * F32 * bool :=
  (tr_obs tr, tr_next_obs tr, [tr_action tr], as_float32 (tr_reward tr), tr_terminated tr).

(** The five cells of a row as the constructor leaves it. *)
Definition zero_cells (space : spaces.Box Obs) : Obs * Obs * list Z * F32 * bool :=
  (spaces.zero_observation space, spaces.zero_observation space, [0], float32_zero, false).

(** Row [k] of a sampled batch, across its five collections. *)
Definition batch_row (batch : ReplayBufferSamples.t Obs F32) (k : nat)
  : option (Obs * Obs * list Z * F32 * bool) :=
  o ← ReplayBufferSamples.observations batch !! k;
  o' ← ReplayBufferSamples.next_observations batch !! k;
  a ← ReplayBufferSamples.actions batch !! k;
  r ← ReplayBufferSamples.rewards batch !! k;
  d ← ReplayBufferSamples.terminateds batch !! k;
  Some (o, o', a, r, d).

(** The buffer a well-formed [self] is left as by a store whose action does
    not fit an int64 cell: the two observation rows of the current slot are
    written, nothing else is. *)
Definition after_failed_store (tr : Transition Obs Reward)
    (self : @ReplayBuffer.t Obs F32) : @ReplayBuffer.t Obs F32 :=
  let i := Z.to_nat (ReplayBuffer.current_idx self) in
  ReplayBuffer.set_next_observations
    (<[i := tr_next_obs tr]> (ReplayBuffer.next_observations self))
    (ReplayBuffer.set_observations
       (<[i := tr_obs tr]> (ReplayBuffer.observations self)) self).

End SlotContents.

(** ** The collection loop of the notebook *)

Section CollectLoop.

Context {E Obs RawReward Reward F32 Info Q : Type}.
Context `{!Env E Obs RawReward Info} `{!QNetwork Q Obs}.
Variable float_ : RawReward -> Reward.
Variable as_float32 : Reward -> F32.
Variable episode_line : Info -> option (list Byte.byte).

(** [for _ in range(n): obs = collect_one_step(env, q_net, buffer, obs,
    exploration_rate, verbose)], stopping at the first exception. *)
Fixpoint collect_steps (n : nat) (q_net : Q) (obs : Obs) (exploration_rate : float)
    (verbose : Z) (w : @World E Obs F32) : outcome Obs * @World E Obs F32 :=
  match n with
  | O => (Returns obs, w)
  | S n' =>
      match collect_one_step float_ as_float32 episode_line q_net obs
              exploration_rate verbose w with
      | (Returns obs', w') => collect_steps n' q_net obs' exploration_rate verbose w'
      | (Raises exn, w') => (Raises exn, w')
      end
  end.

(** Every action the environment's action space samples and every action
    the Q-network prefers fits an int64 cell. *)
Definition int64_actions : Prop :=
  (forall e : E, np.is_int64 (fst (env_action_space_sample e)) = true) /\
  (forall (q_net : Q) (obs : Obs), np.is_int64 (q_argmax_item q_net obs) = true).

End CollectLoop.

(** ** The grid world *)

Module Gridworld.

(** A state is a tuple of two Python integers; an action is a string. *)
Definition state : Type := Z * Z.

(** A call returns a value, or fails on a local variable that was never
    bound. *)
Inductive result (A : Type) : Type :=
| Value (a : A)
| UnboundLocalError.

Arguments Value {A} a.
Arguments UnboundLocalError {A}.

(** [i < x] and [i > x] for an integer [i] and a float literal [x]: Python
    compares the two exactly, and the literals used are rationals. *)
Definition int_lt_float (i : Z) (x : Q) : bool := negb (Qle_bool x (inject_Z i)).

Definition int_gt_float (i : Z) (x : Q) : bool := negb (Qle_bool (inject_Z i) x).

(** [is_legal_state(state)] *)
Definition is_legal_state (s : state) : bool :=
  if int_lt_float (fst s) (-0.5) || int_gt_float (fst s) 4.5
     || int_lt_float (snd s) (-0.5) || int_gt_float (snd s) 4.5
  then false
  else true.

(** [state == (i, j)] *)
Definition state_eqb (s t : state) : bool := (fst s =? fst t) && (snd s =? snd t).

(** [get_reward_state(state, action)]: the reward and the next state. The
    local [next_state] stays unbound when [action] is none of the four
    letters. *)
Definition get_reward_state (s : state) (action : string) : result (Z * state) :=
  if state_eqb s (1, 4) then Value (10, (1, 0))
  else if state_eqb s (3, 4) then Value (5, (3, 2))
  else
    let next_state : option state :=
      if (action =? "N")%string then Some (fst s, snd s + 1)
      else if (action =? "S")%string then Some (fst s, snd s - 1)
      else if (action =? "W")%string then Some (fst s - 1, snd s)
      else if (action =? "E")%string then Some (fst s + 1, snd s)
      else None in
    match next_state with
    | None => UnboundLocalError
    | Some next_state =>
        if is_legal_state next_state then Value (0, next_state)
        else Value (-1, s)
    end.

(** [action_to_take(state)]: the uniformly random policy. *)
Definition action_to_take (s : state) (rs : np.random.RandomState)
  : string * np.random.RandomState :=
  let (r, rs') := np.random.rand rs in
  if (r <? 1 / 4)%float then ("N"%string, rs')
  else if (r <? 1 / 2)%float then ("S"%string, rs')
  else if (r <? 3 / 4)%float then ("E"%string, rs')
  else ("W"%string, rs').

(** The loop of [run_gridworld], [steps] iterations from [s] on, appending
    to the three lists. *)
Fixpoint run_loop (steps : nat) (s : state)
    (state_list : list state) (action_list : list string) (reward_list : list Z)
    (rs : np.random.RandomState)
  : result (list state * list string * list Z) * np.random.RandomState :=
  match steps with
  | O => (Value (state_list, action_list, reward_list), rs)
  | S steps' =>
      let (action, rs') := action_to_take s rs in
      match get_reward_state s action with
      | UnboundLocalError => (UnboundLocalError, rs')
      | Value (reward, next_state) =>
          run_loop steps' next_state
            (state_list ++ [s]) (action_list ++ [action]) (reward_list ++ [reward]) rs'
      end
  end.

(** [run_gridworld(MAX_TIME, init_state)] *)
Definition run_gridworld (MAX_TIME : Z) (init_state : state) (rs : np.random.RandomState)
  : result (list state * list string * list Z) * np.random.RandomState :=
  run_loop (Z.to_nat MAX_TIME) init_state [] [] [] rs.

(** A Python number: the returns mix the integer rewards with floats. *)
Inductive number : Set :=
| Int (z : Z)
| Float (f : float).

(** [gamma * g] for a float [gamma]: an integer operand is converted. *)
Definition float_mul (gamma : float) (g : number) : outcome float :=
  match g with
  | Int z => f ← float_of_int z; Returns (gamma * f)%float
  | Float f => Returns (gamma * f)%float
  end.

(** [r + x] for an integer [r] and a float [x]. *)
Definition int_add_float (r : Z) (x : float) : outcome float :=
  f ← float_of_int r; Returns (f + x)%float.

(** Python lists resolve an integer index as numpy arrays do along an
    axis. *)
Definition list_getitem {A} (l : list A) (i : Z) : outcome A := np.getitem l i.

Definition list_setitem {A} (l : list A) (i : Z) (v : A) : outcome (list A) :=
  np.setitem l i v.

(** The loop [for t in range(MAX_TIME - 3, -1, -1)] of
    [compute_return_list], with [count] iterations left: [t = count - 1]
    comes next. *)
Fixpoint backward (count : nat) (reward_list : list Z) (gamma : float)
    (return_list : list number) : outcome (list number) :=
  match count with
  | O => Returns return_list
  | S t' =>
      let t := Z.of_nat t' in
      r ← list_getitem reward_list t;
      g ← list_getitem return_list (t + 1);
      x ← float_mul gamma g;
      v ← int_add_float r x;
      return_list ← list_setitem return_list t (Float v);
      backward t' reward_list gamma return_list
  end.

(** [compute_return_list(MAX_TIME, reward_list, gamma)] *)
Definition compute_return_list (MAX_TIME : Z) (reward_list : list Z) (gamma : float)
  : outcome (list number) :=
  let return_list := replicate (Z.to_nat (MAX_TIME - 1)) (Int 0) in
  last ← list_getitem reward_list (-1);
  return_list ← list_setitem return_list (-1) (Int last);
  backward (Z.to_nat (MAX_TIME - 2)) reward_list gamma return_list.

(** The four actions, the four rewards of the kernel, and the integers that
    convert to a float. *)
Definition is_action (a : string) : Prop :=
  a = "N"%string \/ a = "S"%string \/ a = "W"%string \/ a = "E"%string.

Definition is_reward (r : Z) : Prop := r = 10 \/ r = 5 \/ r = 0 \/ r = -1.

Definition convertible (z : Z) : Prop := Z.abs z < float_overflow_bound.

(** A number that float arithmetic accepts as an operand. *)
Definition number_ok (g : number) : Prop :=
  match g with
  | Int z => convertible z
  | Float _ => True
  end.

(** The float a number stands for in float arithmetic. *)
Definition to_float (g : number) : float :=
  match g with
  | Int z => SF2Prim (binary_normalize prec emax z 0 false)
  | Float f => f
  end.

(** [states], [actions] and [rewards] record a walk from [s]: each state
    is followed by the one [get_reward_state] gives for the recorded action,
    with the recorded reward. [last] is the state after the walk. *)
Fixpoint walk (s : state) (states : list state) (actions : list string)
    (rewards : list Z) (last : state) : Prop :=
  match states, actions, rewards with
  | [], [], [] => last = s
  | s0 :: states', a :: actions', r :: rewards' =>
      s0 = s /\
      exists next_state,
        get_reward_state s a = Value (r, next_state) /\
        walk next_state states' actions' rewards' last
  | _, _, _ => False
  end.

End Gridworld.

(** ** The Monte Carlo estimate of the grid world notebook *)

Module MonteCarlo.

Import Gridworld.

(** How [est_v_pi] can fail: by an exception of a callee, or on the unbound
    local of the transition kernel. *)
Inductive failure : Set :=
| Exception (e : exception)
| UnboundLocal.

Inductive attempt (A : Type) : Type :=
| Done (a : A)
| Failed (f : failure).

Arguments Done {A} a.
Arguments Failed {A} f.

(** [np.random.randint(low, high)] without a size: one integer of
    [[low, high)]; ValueError when [low >= high]. *)
Definition randint_scalar (low high : Z) (rs : np.random.RandomState)
  : outcome Z * np.random.RandomState :=
  if high <=? low then (Raises ValueError, rs)
  else (Returns (low + np.random.bits rs (np.random.consumed rs) mod (high - low)),
        np.random.advance 1 rs).

Section Estimate.

(** [np.mean] of a non-empty list of numbers: numpy's float64 mean, whose
    summation order is not modelled. *)
Variable mean_nonempty : list number -> float.

(** [np.mean(l)]: NaN (with a warning) for the empty list. *)
Definition mean (l : list number) : float :=
  match l with
  | [] => nan
  | _ => mean_nonempty l
  end.

(** [state_bins[s]] of the [defaultdict(list)]: a missing key reads as the
    empty list. *)
Definition bin (state_bins : gmap state (list number)) (s : state) : list number :=
  default [] (state_bins !! s).

(** [state_bins[s].append(g)] *)
Definition bin_append (state_bins : gmap state (list number)) (s : state) (g : number)
  : gmap state (list number) :=
  <[s := bin state_bins s ++ [g]]> state_bins.

(** The loop [for i in range(len(return_list) - 1, 0, -1)], index [i] coming
    next. *)
Fixpoint bin_loop (i : nat) (state_list : list state) (return_list : list number)
    (state_bins : gmap state (list number)) : outcome (gmap state (list number)) :=
  match i with
  | O => Returns state_bins
  | S i' =>
      s ← list_getitem state_list (Z.of_nat i);
      g ← list_getitem return_list (Z.of_nat i);
      bin_loop i' state_list return_list (bin_append state_bins s g)
  end.

(** One iteration of the loop over the chains. *)
Definition one_chain (MAX_TIME : Z) (state_bins : gmap state (list number))
    (rs : np.random.RandomState)
  : attempt (gmap state (list number)) * np.random.RandomState :=
  match randint_scalar 0 5 rs with
  | (Raises e, rs1) => (Failed (Exception e), rs1)
  | (Returns init_x, rs1) =>
      match randint_scalar 0 5 rs1 with
      | (Raises e, rs2) => (Failed (Exception e), rs2)
      | (Returns init_y, rs2) =>
          match run_gridworld MAX_TIME (init_x, init_y) rs2 with
          | (UnboundLocalError, rs3) => (Failed UnboundLocal, rs3)
          | (Value (state_list, action_list, reward_list), rs3) =>
              match compute_return_list MAX_TIME reward_list 0.9 with
              | Raises e => (Failed (Exception e), rs3)
              | Returns return_list =>
                  match bin_loop (length return_list - 1) state_list return_list
                          state_bins with
                  | Raises e => (Failed (Exception e), rs3)
                  | Returns state_bins' => (Done state_bins', rs3)
                  end
              end
          end
      end
  end.

(** [for _ in range(NUM_CHAIN)], [chains] iterations left. *)
Fixpoint chain_loop (chains : nat) (MAX_TIME : Z)
    (state_bins : gmap state (list number)) (rs : np.random.RandomState)
  : attempt (gmap state (list number)) * np.random.RandomState :=
  match chains with
  | O => (Done state_bins, rs)
  | S chains' =>
      match one_chain MAX_TIME state_bins rs with
      | (Done state_bins', rs') => chain_loop chains' MAX_TIME state_bins' rs'
      | (Failed f, rs') => (Failed f, rs')
      end
  end.

(** [v_pi[i, j] = x] on the 5 x 5 matrix, for indices inside it. *)
Definition matrix_set (v_pi : list (list float)) (i j : nat) (x : float)
  : list (list float) :=
  alter (fun row => <[j := x]> row) i v_pi.

(** [v_pi = np.zeros((5, 5))], then the two loops that set every cell to the
    mean of its bin. *)
Definition fill_means (state_bins : gmap state (list number)) : list (list float) :=
  foldl (fun v_pi i =>
           foldl (fun v_pi j =>
                    matrix_set v_pi i j (mean (bin state_bins (Z.of_nat i, Z.of_nat j))))
                 v_pi (seq 0 5))
        (replicate 5 (replicate 5 0%float)) (seq 0 5).

(** [est_v_pi(NUM_CHAIN, MAX_TIME)] *)
Definition est_v_pi (NUM_CHAIN MAX_TIME : Z) (rs : np.random.RandomState)
  : attempt (list (list float)) * np.random.RandomState :=
  match chain_loop (Z.to_nat NUM_CHAIN) MAX_TIME ∅ rs with
  | (Failed f, rs') => (Failed f, rs')
  | (Done state_bins, rs') => (Done (fill_means state_bins), rs')
  end.

End Estimate.

End MonteCarlo.

(** ** The bins of the estimate, described by the chains *)

(** The returns one chain contributes to the bin of state [s]: the returns
    at the time steps [len(returns) - 1] down to 1 at which the chain was
    in [s], in that order. *)
Definition binned_returns (s : Gridworld.state) (states : list Gridworld.state)
    (returns : list Gridworld.number) : list Gridworld.number :=
  omap (fun t =>
          match states !! t, returns !! t with
          | Some s', Some g => if Gridworld.state_eqb s' s then Some g else None
          | _, _ => None
          end)
       (reverse (seq 1 (length returns - 1))).

(** The chains [est_v_pi] simulates, in order, each with the states it
    visited and its returns: the initial state is drawn coordinate by
    coordinate, the chain is run for [MAX_TIME] steps and its returns are
    computed with the default [gamma = 0.9]. The list ends early at a
    failure. *)
Fixpoint simulated_chains (chains : nat) (MAX_TIME : Z) (rs : np.random.RandomState)
  : list (list Gridworld.state * list Gridworld.number) :=
  match chains with
  | O => []
  | S chains' =>
      match MonteCarlo.randint_scalar 0 5 rs with
      | (Raises _, _) => []
      | (Returns init_x, rs1) =>
          match MonteCarlo.randint_scalar 0 5 rs1 with
          | (Raises _, _) => []
          | (Returns init_y, rs2) =>
              match Gridworld.run_gridworld MAX_TIME (init_x, init_y) rs2 with
              | (Gridworld.UnboundLocalError, _) => []
              | (Gridworld.Value (state_list, _, reward_list), rs3) =>
                  match Gridworld.compute_return_list MAX_TIME reward_list 0.9 with
                  | Raises _ => []
                  | Returns return_list =>
                      (state_list, return_list) :: simulated_chains chains' MAX_TIME rs3
                  end
              end
          end
      end
  end.

(** A mean to run the estimate with: the floats are summed from left to
    right and divided by their count. *)
Definition sequential_mean (l : list Gridworld.number) : float :=
  (foldl (fun acc g => acc + Gridworld.to_float g) 0 l
   / Gridworld.to_float (Gridworld.Int (Z.of_nat (length l))))%float.

(** * Properties of the replay buffer *)

Section BufferFacts.

Context {Obs Reward F32 : Type}.
Variable as_float32 : Reward -> F32.
Variable float32_zero : F32.

Abbreviation buffer := (@ReplayBuffer.t Obs F32).
Abbreviation method := (@ReplayBuffer.method Obs F32).
Abbreviation store := (@store Obs Reward F32 as_float32).
Abbreviation store_all := (@store_all Obs Reward F32 as_float32).
Abbreviation after_store := (@after_store Obs Reward F32 as_float32).
Abbreviation fresh_then_store := (@fresh_then_store Obs Reward F32 as_float32 float32_zero).
Abbreviation fresh := (@fresh Obs F32 float32_zero).

Lemma axis_index_in_range (len : nat) (i : Z) :
  0 <= i < Z.of_nat len -> np.axis_index len i = Returns (Z.to_nat i).
Proof.
  intros Hi. unfold np.axis_index.
  destruct (Z.leb_spec 0 i); [|lia].
  destruct (Z.ltb_spec i (Z.of_nat len)); [reflexivity|lia].
Qed.

Lemma axis_index_empty (i : Z) : np.axis_index 0 i = Raises IndexError.
Proof.
  unfold np.axis_index.
  destruct (Z.leb_spec 0 i), (Z.ltb_spec i (Z.of_nat 0)),
    (Z.leb_spec (- Z.of_nat 0) i), (Z.ltb_spec i 0); simpl; try reflexivity; lia.
Qed.

Lemma setitem_in_range {A} (arr : list A) (i : Z) (v : A) :
  0 <= i < Z.of_nat (length arr) ->
  np.setitem arr i v = Returns (<[Z.to_nat i := v]> arr).
Proof.
  intros Hi. unfold np.setitem. rewrite axis_index_in_range by exact Hi. reflexivity.
Qed.

Lemma store_row_in_range {A} (get : buffer -> list A) (set : list A -> buffer -> buffer)
    (row : A) (self : buffer) :
  0 <= ReplayBuffer.current_idx self < Z.of_nat (length (get self)) ->
  ReplayBuffer.store_row get set row self
  = (Returns tt, set (<[Z.to_nat (ReplayBuffer.current_idx self) := row]> (get self)) self).
Proof.
  intros Hi. unfold ReplayBuffer.store_row, ReplayBuffer.attr, ReplayBuffer.lift,
    ReplayBuffer.assign, mbind, ReplayBuffer.method_bind.
  rewrite setitem_in_range by exact Hi. reflexivity.
Qed.

Lemma method_bind_returns {A B} (m : method A) (k : A -> method B) (self self' : buffer)
    (a : A) :
  m self = (Returns a, self') -> (m ≫= k) self = k a self'.
Proof.
  intros Hm. unfold mbind, ReplayBuffer.method_bind. rewrite Hm. reflexivity.
Qed.

(** Runs the array write at the head of a method body, the index being in
    range by the hypotheses at hand. *)
Ltac run_store_row :=
  erewrite method_bind_returns by (apply store_row_in_range; cbn; lia).

(** One store on a well-formed buffer returns and gives [after_store]. *)
Lemma store_wf (tr : Transition Obs Reward) (self : buffer) :
  wf self -> storable tr ->
  store tr self = (Returns tt, after_store tr self).
Proof.
  intros [Hi Ho Hn Ha Hr Ht _] Hs. unfold store, ReplayBuffer.store_transition.
  do 2 run_store_row.
  unfold storable in Hs. unfold np.as_int64. rewrite Hs.
  erewrite method_bind_returns by reflexivity.
  do 3 run_store_row.
  unfold mbind, ReplayBuffer.method_bind, ReplayBuffer.attr, ReplayBuffer.assign,
    after_store, mret, ReplayBuffer.method_ret. cbn.
  destruct (ReplayBuffer.current_idx self + 1 =? ReplayBuffer.buffer_size self);
    reflexivity.
Qed.

Lemma after_store_wf (tr : Transition Obs Reward) (self : buffer) :
  wf self -> wf (after_store tr self).
Proof.
  intros [Hi Ho Hn Ha Hr Ht Hrows].
  split; unfold after_store; cbn; rewrite ?length_insert; try assumption.
  - destruct (Z.eqb_spec (ReplayBuffer.current_idx self + 1)
                (ReplayBuffer.buffer_size self)); lia.
  - apply Forall_insert; [assumption | reflexivity].
Qed.

(** *** Arithmetic of the wrapping write index *)

Lemma wrap_index (C k : Z) :
  1 <= C -> 0 <= k ->
  (if k mod C + 1 =? C then 0 else k mod C + 1) = (k + 1) mod C.
Proof.
  intros HC Hk.
  pose proof (Z.mod_pos_bound k C ltac:(lia)) as Hr.
  pose proof (Z.div_mod k C ltac:(lia)) as Hdm.
  destruct (Z.eqb_spec (k mod C + 1) C) as [Heq | Hne].
  - apply Z.mod_unique_pos with (q := k / C + 1); lia.
  - apply Z.mod_unique_pos with (q := k / C); lia.
Qed.

Lemma wrap_full (C k : Z) :
  1 <= C -> 0 <= k ->
  (if k mod C + 1 =? C then true else C <=? k) = (C <=? k + 1).
Proof.
  intros HC Hk.
  pose proof (Z.mod_pos_bound k C ltac:(lia)) as Hr.
  pose proof (Z.mod_le k C ltac:(lia) ltac:(lia)) as Hle.
  destruct (Z.eqb_spec (k mod C + 1) C) as [Heq | Hne].
  - symmetry. apply Z.leb_le. lia.
  - destruct (Z.leb_spec C k), (Z.leb_spec C (k + 1)); try reflexivity; try lia.
    exfalso. apply Hne. rewrite Z.mod_small; lia.
Qed.

Lemma after_store_counted (C k : Z) (tr : Transition Obs Reward) (self : buffer) :
  0 <= k -> counted C k self -> counted C (k + 1) (after_store tr self).
Proof.
  intros Hk (Hwf & HC & Hidx & Hfull).
  pose proof (wf_idx _ Hwf) as Hi.
  split; [apply after_store_wf; exact Hwf |].
  split; [exact HC |]. split.
  - unfold after_store; cbn. rewrite Hidx, HC. apply wrap_index; lia.
  - unfold after_store; cbn. rewrite Hidx, Hfull, HC. apply wrap_full; lia.
Qed.

Lemma slots_from_S (C k : Z) (n : nat) :
  slots_from C k (S n) = k mod C :: slots_from C (k + 1) n.
Proof.
  unfold slots_from. cbn [seq map]. rewrite Z.add_0_r. f_equal.
  rewrite <- seq_shift, map_map. apply map_ext. intros j. f_equal. lia.
Qed.

Lemma store_all_counted (trs : list (Transition Obs Reward)) :
  forall (C k : Z) (self : buffer),
    0 <= k -> counted C k self -> Forall storable trs ->
    exists self',
      store_all trs self = (Returns (slots_from C k (length trs)), self') /\
      counted C (k + Z.of_nat (length trs)) self'.
Proof.
  induction trs as [| tr rest IH]; intros C k self Hk Hc Hs.
  - exists self. split; [reflexivity |]. cbn. rewrite Z.add_0_r. exact Hc.
  - apply Forall_cons in Hs as [Htr Hrest].
    destruct (IH C (k + 1) (after_store tr self) ltac:(lia)
                (after_store_counted C k tr self Hk Hc) Hrest) as (self' & Hrun & Hc').
    exists self'. split.
    + cbn [store_all length]. rewrite slots_from_S.
      destruct Hc as (Hwf & _ & Hidx & _).
      unfold mbind at 1, ReplayBuffer.method_bind at 1, ReplayBuffer.attr at 1.
      erewrite method_bind_returns by (apply store_wf; assumption).
      erewrite method_bind_returns by exact Hrun.
      rewrite Hidx. reflexivity.
    + replace (k + Z.of_nat (length (tr :: rest))) with (k + 1 + Z.of_nat (length rest))
        by (cbn [length]; lia).
      exact Hc'.
Qed.

Lemma zeros_nonneg {A} (n : Z) (z : A) :
  0 <= n -> np.zeros n z = Returns (replicate (Z.to_nat n) z).
Proof.
  intros Hn. unfold np.zeros. destruct (Z.ltb_spec n 0); [lia | reflexivity].
Qed.

Lemma init_nonneg (capacity : Z) (space : spaces.Box Obs) (acts : spaces.Discrete) :
  0 <= capacity ->
  ReplayBuffer.__init__ float32_zero capacity space acts
  = Returns (fresh capacity space acts).
Proof.
  intros Hc. unfold ReplayBuffer.__init__.
  rewrite !zeros_nonneg by exact Hc. reflexivity.
Qed.

Lemma fresh_counted (capacity : Z) (space : spaces.Box Obs) (acts : spaces.Discrete) :
  1 <= capacity -> counted capacity 0 (fresh capacity space acts).
Proof.
  intros Hc. split; [| split; [reflexivity | split]].
  - split; cbn; rewrite ?length_replicate; try lia.
    apply Forall_replicate. reflexivity.
  - cbn. rewrite Z.mod_0_l; lia.
  - cbn. symmetry. apply Z.leb_gt. lia.
Qed.

(** Every run of storable transitions on a fresh buffer of capacity at
    least 1 returns, and leaves the state counted by its length. *)
Lemma fresh_then_store_counted (capacity : Z) (space : spaces.Box Obs)
    (acts : spaces.Discrete) (trs : list (Transition Obs Reward)) :
  1 <= capacity -> Forall storable trs ->
  exists self,
    fresh_then_store capacity space acts trs
    = Returns (slots_from capacity 0 (length trs), self) /\
    counted capacity (Z.of_nat (length trs)) self.
Proof.
  intros Hc Hs.
  destruct (store_all_counted trs capacity 0 (fresh capacity space acts)
              ltac:(lia) (fresh_counted capacity space acts Hc) Hs)
    as (self & Hrun & Hcnt).
  exists self. split; [| exact Hcnt].
  unfold fresh_then_store. rewrite init_nonneg by lia.
  unfold mbind, outcome_bind. rewrite Hrun. reflexivity.
Qed.

(** *** [is_full] is never cleared *)

Lemma keeps_full_bind {A B} (m : method A) (k : A -> method B) :
  keeps_full m -> (forall a, keeps_full (k a)) -> keeps_full (m ≫= k).
Proof.
  intros Hm Hk self Hfull. specialize (Hm self Hfull).
  unfold mbind, ReplayBuffer.method_bind.
  destruct (m self) as [[a | e] self']; cbn in Hm |- *.
  - apply Hk. exact Hm.
  - exact Hm.
Qed.

Lemma keeps_full_attr {A} (get : buffer -> A) : keeps_full (ReplayBuffer.attr get).
Proof. intros self Hfull. exact Hfull. Qed.

Lemma keeps_full_lift {A} (o : outcome A) : keeps_full (ReplayBuffer.lift o : method A).
Proof. intros self Hfull. exact Hfull. Qed.

Lemma keeps_full_ret {A} (a : A) : keeps_full (mret a : method A).
Proof. intros self Hfull. exact Hfull. Qed.

Lemma keeps_full_assign (set : buffer -> buffer) :
  (forall self, ReplayBuffer.is_full self = true -> ReplayBuffer.is_full (set self) = true) ->
  keeps_full (ReplayBuffer.assign set).
Proof. intros Hset self Hfull. apply Hset. exact Hfull. Qed.

Lemma keeps_full_store_row {A} (get : buffer -> list A)
    (set : list A -> buffer -> buffer) (row : A) :
  (forall arr self, ReplayBuffer.is_full (set arr self) = ReplayBuffer.is_full self) ->
  keeps_full (ReplayBuffer.store_row get set row).
Proof.
  intros Hset. unfold ReplayBuffer.store_row.
  apply keeps_full_bind; [apply keeps_full_attr | intros arr].
  apply keeps_full_bind; [apply keeps_full_attr | intros i].
  apply keeps_full_bind; [apply keeps_full_lift | intros arr'].
  apply keeps_full_assign. intros self Hfull. rewrite Hset. exact Hfull.
Qed.

Lemma keeps_full_store (tr : Transition Obs Reward) : keeps_full (store tr).
Proof.
  unfold store, ReplayBuffer.store_transition.
  repeat first
    [ apply keeps_full_bind; [| intros ?]
    | apply keeps_full_store_row; reflexivity
    | apply keeps_full_attr
    | apply keeps_full_lift
    | apply keeps_full_ret
    | apply keeps_full_assign; intros ? ?; (reflexivity || assumption) ].
  destruct (_ =? _).
  - apply keeps_full_bind; [| intros ?]; apply keeps_full_assign; intros ? ?;
      (reflexivity || assumption).
  - apply keeps_full_ret.
Qed.

Lemma counted_upper_bound (C k : Z) (self : buffer) :
  1 <= C -> 0 <= k -> counted C k self ->
  ReplayBuffer.upper_bound self = Z.min k C.
Proof.
  intros HC Hk (_ & Hsize & Hidx & Hfull).
  unfold ReplayBuffer.upper_bound. rewrite Hfull, Hsize, Hidx.
  destruct (Z.leb_spec C k); [lia |].
  rewrite Z.mod_small; lia.
Qed.

(** *** Drawing and gathering *)

Lemma randint_in_range (low high size : Z) (rs : np.random.RandomState) :
  low < high -> 0 <= size ->
  exists indices rs',
    np.random.randint low high size rs = (Returns indices, rs') /\
    length indices = Z.to_nat size /\
    Forall (fun i => low <= i < high) indices.
Proof.
  intros Hlh Hsize. unfold np.random.randint.
  destruct (Z.eqb_spec size 0) as [-> | Hnz].
  - exists [], rs. repeat split. constructor.
  - destruct (Z.leb_spec high low); [lia |].
    destruct (Z.ltb_spec size 0); [lia |].
    eexists _, _. split; [reflexivity | split].
    + rewrite length_map, length_seq. reflexivity.
    + apply List.Forall_forall. intros i Hin.
      apply in_map_iff in Hin as (j & <- & _).
      pose proof (Z.mod_pos_bound (np.random.bits rs (np.random.consumed rs + j)%nat)
                    (high - low) ltac:(lia)).
      lia.
Qed.

Lemma randint_returned_in_range (low high size : Z) (rs rs' : np.random.RandomState)
    (indices : list Z) :
  np.random.randint low high size rs = (Returns indices, rs') ->
  Forall (fun i => low <= i < high) indices.
Proof.
  unfold np.random.randint.
  destruct (size =? 0); [intros [= <- _]; constructor |].
  destruct (Z.leb_spec high low); [discriminate |].
  destruct (size <? 0); [discriminate |].
  intros [= <- _]. apply List.Forall_forall. intros i Hin.
  apply in_map_iff in Hin as (j & <- & _).
  pose proof (Z.mod_pos_bound (np.random.bits rs (np.random.consumed rs + j)%nat)
                (high - low) ltac:(lia)).
  lia.
Qed.

Lemma randint_empty_range (high size : Z) (rs : np.random.RandomState) :
  high <= 0 -> size <> 0 ->
  np.random.randint 0 high size rs = (Raises ValueError, rs).
Proof.
  intros Hh Hsize. unfold np.random.randint.
  destruct (Z.eqb_spec size 0); [contradiction |].
  destruct (Z.leb_spec high 0); [reflexivity | lia].
Qed.

Lemma getitem_in_range {A} (arr : list A) (i : Z) :
  0 <= i < Z.of_nat (length arr) ->
  exists row, arr !! Z.to_nat i = Some row /\ np.getitem arr i = Returns row.
Proof.
  intros Hi. unfold np.getitem. rewrite axis_index_in_range by exact Hi.
  destruct (lookup_lt_is_Some_2 arr (Z.to_nat i) ltac:(lia)) as [row Hrow].
  exists row. split; [exact Hrow |]. cbn. rewrite Hrow. reflexivity.
Qed.

Lemma index_rows_in_range {A} (arr : list A) (indices : list Z) :
  Forall (fun i => 0 <= i < Z.of_nat (length arr)) indices ->
  exists rows, np.index_rows arr indices = Returns rows /\ gathered arr indices rows.
Proof.
  induction 1 as [| i rest Hi _ (rows & Hrows & Hg)].
  - exists []. split; [reflexivity | constructor].
  - destruct (getitem_in_range arr i Hi) as (row & Hrow & Hget).
    exists (row :: rows). split.
    + cbn. rewrite Hget. cbn. rewrite Hrows. reflexivity.
    + constructor; assumption.
Qed.

Lemma gathered_length {A} (arr : list A) (indices : list Z) (rows : list A) :
  gathered arr indices rows -> length rows = length indices.
Proof. intros Hg. symmetry. exact (Forall2_length _ _ _ Hg). Qed.

Lemma gathered_Forall {A} (P : A -> Prop) (arr : list A) (indices : list Z)
    (rows : list A) :
  Forall P arr -> gathered arr indices rows -> Forall P rows.
Proof.
  intros HP Hg. induction Hg as [| i row rest rows Hrow _ IH]; constructor.
  - exact (proj1 (Forall_lookup P arr) HP _ _ Hrow).
  - exact IH.
Qed.

(** [sample] on a well-formed buffer from which something can be drawn. *)
Lemma sample_in_range (self : buffer) (batch_size : Z) (rs : np.random.RandomState) :
  wf self -> 0 < ReplayBuffer.upper_bound self <= ReplayBuffer.buffer_size self ->
  0 <= batch_size ->
  exists indices rs' batch,
    ReplayBuffer.batch_indices batch_size self rs = (Returns indices, rs') /\
    ReplayBuffer.sample batch_size self rs = (Returns batch, rs') /\
    length indices = Z.to_nat batch_size /\
    Forall (fun i => 0 <= i < ReplayBuffer.upper_bound self) indices /\
    batch_of self indices batch.
Proof.
  intros [Hi Ho Hn Ha Hr Ht _] Hub Hsize.
  destruct (randint_in_range 0 (ReplayBuffer.upper_bound self) batch_size rs
              ltac:(lia) Hsize) as (indices & rs' & Hdraw & Hlen & Hrange).
  assert (Hin : forall {A} (arr : list A),
             Z.of_nat (length arr) = ReplayBuffer.buffer_size self ->
             Forall (fun i => 0 <= i < Z.of_nat (length arr)) indices).
  { intros A arr Harr. eapply Forall_impl; [exact Hrange |]. cbn. intros i ?. lia. }
  destruct (index_rows_in_range _ indices (Hin _ _ Ho)) as (o & Eo & Go).
  destruct (index_rows_in_range _ indices (Hin _ _ Hn)) as (o' & En & Gn).
  destruct (index_rows_in_range _ indices (Hin _ _ Ha)) as (a & Ea & Ga).
  destruct (index_rows_in_range _ indices (Hin _ _ Hr)) as (r & Er & Gr).
  destruct (index_rows_in_range _ indices (Hin _ _ Ht)) as (d & Ed & Gd).
  change (np.random.randint 0 (ReplayBuffer.upper_bound self) batch_size rs)
    with (ReplayBuffer.batch_indices batch_size self rs) in Hdraw.
  eexists indices, rs', _. split; [exact Hdraw | split].
  - unfold ReplayBuffer.sample. rewrite Hdraw. cbn.
    rewrite Eo. cbn. rewrite En. cbn. rewrite Ea. cbn. rewrite Er. cbn. rewrite Ed.
    reflexivity.
  - split; [exact Hlen | split; [exact Hrange |]].
    repeat split; assumption.
Qed.

Lemma slots_from_written (C : Z) (n : nat) (i : Z) :
  1 <= C -> 0 <= i < Z.min (Z.of_nat n) C -> In i (slots_from C 0 n).
Proof.
  intros HC Hi. unfold slots_from. apply in_map_iff.
  exists (Z.to_nat i). split.
  - rewrite Z.add_0_l, Z2Nat.id by lia. apply Z.mod_small. lia.
  - apply in_seq. lia.
Qed.

(** ** The claims about the ring of slots *)

(** C1. On a fresh buffer of capacity [capacity >= 1], any run of stores
    returns; [is_full] is set exactly when at least [capacity] stores were
    made, hence first by the store number [capacity], which is the one that
    wraps [current_idx] back to 0; and no store, returning or raising, on
    any buffer at all clears a set [is_full]. ([sample] returns no buffer:
    it cannot change the flag.) *)
Theorem is_full_from_capacity_stores_on
    (capacity : Z) (space : spaces.Box Obs) (acts : spaces.Discrete)
    (trs : list (Transition Obs Reward)) :
  1 <= capacity -> Forall storable trs ->
  (exists slots self,
      fresh_then_store capacity space acts trs = Returns (slots, self) /\
      ReplayBuffer.is_full self = (capacity <=? Z.of_nat (length trs)) /\
      (Z.of_nat (length trs) = capacity -> ReplayBuffer.current_idx self = 0)) /\
  (forall (self : buffer) (tr : Transition Obs Reward),
      ReplayBuffer.is_full self = true ->
      ReplayBuffer.is_full (snd (store tr self)) = true).
Proof.
  intros HC Hs. split.
  - destruct (fresh_then_store_counted capacity space acts trs HC Hs)
      as (self & Hrun & _ & _ & Hidx & Hfull).
    exists (slots_from capacity 0 (length trs)), self.
    split; [exact Hrun | split; [exact Hfull |]].
    intros Hlen. rewrite Hidx, Hlen. apply Z.mod_same. lia.
  - intros self tr. apply keeps_full_store.
Qed.

(** C2. After [capacity + k] stores on a fresh buffer of capacity
    [capacity >= 1], [current_idx] is [k mod capacity] and the
    [upper_bound] of [sample] is [capacity]. *)
Theorem write_index_after_wrap
    (capacity k : Z) (space : spaces.Box Obs) (acts : spaces.Discrete)
    (trs : list (Transition Obs Reward)) :
  1 <= capacity -> 0 <= k -> Forall storable trs ->
  Z.of_nat (length trs) = capacity + k ->
  exists slots self,
    fresh_then_store capacity space acts trs = Returns (slots, self) /\
    ReplayBuffer.current_idx self = k mod capacity /\
    ReplayBuffer.upper_bound self = capacity.
Proof.
  intros HC Hk Hs Hlen.
  destruct (fresh_then_store_counted capacity space acts trs HC Hs)
    as (self & Hrun & Hcnt).
  exists (slots_from capacity 0 (length trs)), self.
  split; [exact Hrun | split].
  - destruct Hcnt as (_ & _ & Hidx & _). rewrite Hidx, Hlen.
    replace (capacity + k) with (k + 1 * capacity) by lia.
    apply Z_mod_plus_full.
  - rewrite (counted_upper_bound capacity (Z.of_nat (length trs))) by (assumption || lia).
    lia.
Qed.

(** C4, as the code has it. After [n <= capacity] stores on a fresh buffer
    the [upper_bound] of [sample] is [n]; [is_full] is false while
    [n < capacity] and true once [n = capacity >= 1]. *)
Theorem populated_range_up_to_capacity
    (capacity : Z) (space : spaces.Box Obs) (acts : spaces.Discrete)
    (trs : list (Transition Obs Reward)) :
  0 <= capacity -> Forall storable trs ->
  Z.of_nat (length trs) <= capacity ->
  exists slots self,
    fresh_then_store capacity space acts trs = Returns (slots, self) /\
    ReplayBuffer.upper_bound self = Z.of_nat (length trs) /\
    ReplayBuffer.is_full self
    = (1 <=? capacity) && (Z.of_nat (length trs) =? capacity).
Proof.
  intros HC Hs Hlen.
  destruct (Z.eq_dec capacity 0) as [-> | Hpos].
  - destruct trs as [| tr rest]; [| cbn in Hlen; lia].
    exists [], (fresh 0 space acts).
    unfold fresh_then_store. rewrite init_nonneg by lia. repeat split.
  - destruct (fresh_then_store_counted capacity space acts trs ltac:(lia) Hs)
      as (self & Hrun & Hcnt).
    exists (slots_from capacity 0 (length trs)), self.
    split; [exact Hrun | split].
    + rewrite (counted_upper_bound capacity (Z.of_nat (length trs))) by (assumption || lia).
      lia.
    + destruct Hcnt as (_ & _ & _ & Hfull). rewrite Hfull.
      destruct (Z.leb_spec capacity (Z.of_nat (length trs))),
        (Z.leb_spec 1 capacity), (Z.eqb_spec (Z.of_nat (length trs)) capacity);
        cbn; try reflexivity; lia.
Qed.

(** C3. On every buffer reached from a fresh one by at least one store and
    for every generator state: whatever indices [sample(batch_size)] draws,
    each lies in [[0, upper_bound)], with [upper_bound] the capacity when
    [is_full] and [current_idx] otherwise, and each is a slot some store
    wrote to; and for every [batch_size >= 0] the call does return, draws
    [batch_size] indices and returns the cells at these indices. *)
Theorem sampled_indices_in_populated_range
    (capacity : Z) (space : spaces.Box Obs) (acts : spaces.Discrete)
    (trs : list (Transition Obs Reward)) (batch_size : Z)
    (rs : np.random.RandomState) :
  1 <= capacity -> Forall storable trs -> trs <> [] ->
  exists slots self,
    fresh_then_store capacity space acts trs = Returns (slots, self) /\
    (forall indices rs',
        ReplayBuffer.batch_indices batch_size self rs = (Returns indices, rs') ->
        Forall (fun i =>
                  0 <= i < (if ReplayBuffer.is_full self then capacity
                            else ReplayBuffer.current_idx self) /\
                  In i slots) indices) /\
    (0 <= batch_size ->
     exists indices rs' batch,
       ReplayBuffer.batch_indices batch_size self rs = (Returns indices, rs') /\
       ReplayBuffer.sample batch_size self rs = (Returns batch, rs') /\
       batch_of self indices batch /\
       length indices = Z.to_nat batch_size).
Proof.
  intros HC Hs Hne.
  destruct (fresh_then_store_counted capacity space acts trs HC Hs)
    as (self & Hrun & Hcnt).
  assert (Hn : 1 <= Z.of_nat (length trs)) by (destruct trs; [contradiction | cbn; lia]).
  pose proof (counted_upper_bound capacity (Z.of_nat (length trs)) self HC
                ltac:(lia) Hcnt) as Hub.
  destruct Hcnt as (Hwf & Hcap & _ & _).
  exists (slots_from capacity 0 (length trs)), self.
  split; [exact Hrun | split].
  - intros indices rs' Hdraw. unfold ReplayBuffer.batch_indices in Hdraw.
    apply randint_returned_in_range in Hdraw.
    eapply Forall_impl; [exact Hdraw |]. cbn. intros i Hi.
    unfold ReplayBuffer.upper_bound in Hub, Hi. rewrite Hcap in Hub, Hi. split.
    + exact Hi.
    + apply slots_from_written; [exact HC |]. rewrite <- Hub. exact Hi.
  - intros Hsize.
    assert (Hpop : 0 < ReplayBuffer.upper_bound self <= ReplayBuffer.buffer_size self)
      by lia.
    destruct (sample_in_range self batch_size rs Hwf Hpop Hsize)
      as (indices & rs' & batch & Hdraw & Hsample & Hlen & _ & Hbatch).
    exists indices, rs', batch. repeat (split; [assumption |]). exact Hlen.
Qed.

Lemma shape_2d_rows {A} (cols : nat) (m : list (list A)) :
  Forall (fun row => length row = cols) m -> shape_2d cols m = Some [length m; cols].
Proof.
  intros Hrows. unfold shape_2d.
  replace (forallb (fun row => Nat.eqb (length row) cols) m) with true; [reflexivity |].
  symmetry. apply forallb_forall. intros row Hin.
  apply Nat.eqb_eq. exact (proj1 (List.Forall_forall _ m) Hrows row Hin).
Qed.

(** C10. On every buffer reached from a fresh one by at least one store and
    for every [batch_size >= 1], [sample] returns; the sampled actions have
    shape [(batch_size, 1)], the rewards and terminateds have shape
    [(batch_size,)], and the observations and next observations have
    [batch_size] rows: the five collections agree in their leading
    dimension only. *)
Theorem sampled_shapes
    (capacity : Z) (space : spaces.Box Obs) (acts : spaces.Discrete)
    (trs : list (Transition Obs Reward)) (batch_size : Z)
    (rs : np.random.RandomState) :
  1 <= capacity -> Forall storable trs -> trs <> [] -> 1 <= batch_size ->
  exists slots self rs' batch,
    fresh_then_store capacity space acts trs = Returns (slots, self) /\
    ReplayBuffer.sample batch_size self rs = (Returns batch, rs') /\
    shape_2d 1 (ReplayBufferSamples.actions batch) = Some [Z.to_nat batch_size; 1%nat] /\
    shape_1d (ReplayBufferSamples.rewards batch) = [Z.to_nat batch_size] /\
    shape_1d (ReplayBufferSamples.terminateds batch) = [Z.to_nat batch_size] /\
    length (ReplayBufferSamples.observations batch) = Z.to_nat batch_size /\
    length (ReplayBufferSamples.next_observations batch) = Z.to_nat batch_size.
Proof.
  intros HC Hs Hne Hsize.
  destruct (fresh_then_store_counted capacity space acts trs HC Hs)
    as (self & Hrun & Hcnt).
  assert (Hn : 1 <= Z.of_nat (length trs)) by (destruct trs; [contradiction | cbn; lia]).
  pose proof (counted_upper_bound capacity (Z.of_nat (length trs)) self HC
                ltac:(lia) Hcnt) as Hub.
  destruct Hcnt as (Hwf & Hcap & _ & _).
  assert (Hpop : 0 < ReplayBuffer.upper_bound self <= ReplayBuffer.buffer_size self)
    by lia.
  assert (Hnonneg : 0 <= batch_size) by lia.
  destruct (sample_in_range self batch_size rs Hwf Hpop Hnonneg)
    as (indices & rs' & batch & _ & Hsample & Hlen & _ & Go & Gn & Ga & Gr & Gd).
  exists (slots_from capacity 0 (length trs)), self, rs', batch.
  split; [exact Hrun | split; [exact Hsample |]].
  apply gathered_length in Go, Gn, Gr, Gd.
  pose proof (gathered_length _ _ _ Ga) as La.
  pose proof (gathered_Forall _ _ _ _ (wf_action_rows _ Hwf) Ga) as Hrows.
  unfold shape_1d. rewrite (shape_2d_rows 1 _ Hrows).
  rewrite Go, Gn, Gr, Gd, La, Hlen. repeat split.
Qed.

(** ** The claims about failures *)

(** The whole behaviour of [sample] on a buffer that holds nothing: outside
    the contract, with [batch_size] 0, the draw is answered before the range
    is looked at and the empty batch is returned; for any other size the
    draw raises. *)
Lemma sample_on_empty_buffer
    (self : buffer) (batch_size : Z) (rs : np.random.RandomState) :
  ReplayBuffer.is_full self = false -> ReplayBuffer.current_idx self = 0 ->
  ReplayBuffer.sample batch_size self rs
  = if batch_size =? 0 then (Returns empty_batch, rs) else (Raises ValueError, rs).
Proof.
  intros Hfull Hidx.
  unfold ReplayBuffer.sample, ReplayBuffer.batch_indices, ReplayBuffer.upper_bound.
  rewrite Hfull, Hidx.
  destruct (Z.eqb_spec batch_size 0) as [-> | Hnz].
  - reflexivity.
  - rewrite randint_empty_range by (lia || assumption). reflexivity.
Qed.

(** C7. On a buffer in which no transition has been stored ([is_full]
    false and [current_idx] 0, so that [upper_bound] is 0), [sample] raises
    instead of returning a batch, for every generator state and every batch
    size of its contract, a positive integer; the same holds of the negative
    sizes. The exception is the ValueError of the index draw, and the
    generator is left as it was. *)
Theorem sample_before_any_store_raises
    (self : buffer) (batch_size : Z) (rs : np.random.RandomState) :
  ReplayBuffer.is_full self = false -> ReplayBuffer.current_idx self = 0 ->
  batch_size <> 0 ->
  ReplayBuffer.upper_bound self = 0 /\
  ReplayBuffer.sample batch_size self rs = (Raises ValueError, rs).
Proof.
  intros Hfull Hidx Hsize.
  assert (Hub : ReplayBuffer.upper_bound self = 0)
    by (unfold ReplayBuffer.upper_bound; rewrite Hfull; exact Hidx).
  split; [exact Hub |].
  unfold ReplayBuffer.sample, ReplayBuffer.batch_indices. rewrite Hub.
  rewrite randint_empty_range by (lia || assumption). reflexivity.
Qed.

(** C8, as the code has it. The constructor raises exactly for the negative
    capacities (ValueError from the array allocation). Capacity 0 is
    accepted: the buffer returned has no slot, and the first
    [store_transition] on it raises IndexError. *)
Theorem init_raises_iff_negative
    (capacity : Z) (space : spaces.Box Obs) (acts : spaces.Discrete)
    (tr : Transition Obs Reward) :
  ReplayBuffer.__init__ float32_zero capacity space acts
  = (if capacity <? 0 then Raises ValueError else Returns (fresh capacity space acts)) /\
  fst (store tr (fresh 0 space acts)) = Raises IndexError.
Proof.
  split.
  - destruct (Z.ltb_spec capacity 0) as [Hneg | Hpos].
    + unfold ReplayBuffer.__init__, np.zeros.
      destruct (Z.ltb_spec capacity 0); [reflexivity | lia].
    + apply init_nonneg. exact Hpos.
  - reflexivity.
Qed.

(** C9, as the code has it. [store_transition] never compares the action
    with the number of actions of the action space. On a well-formed buffer
    every action that an int64 cell can hold is written unchanged to the
    current slot and the call returns; an action outside the int64 range
    raises OverflowError at the write. *)
Theorem store_transition_does_not_check_action
    (self : buffer) (tr : Transition Obs Reward) :
  wf self ->
  (if np.is_int64 (tr_action tr)
   then store tr self = (Returns tt, after_store tr self) /\
        ReplayBuffer.actions (after_store tr self)
          !! Z.to_nat (ReplayBuffer.current_idx self) = Some [tr_action tr]
   else fst (store tr self) = Raises OverflowError).
Proof.
  intros Hwf. destruct (np.is_int64 (tr_action tr)) eqn:Hint.
  - split; [apply store_wf; assumption |].
    destruct Hwf as [Hi _ _ Ha _ _ _]. cbn.
    apply list_lookup_insert_eq. lia.
  - destruct Hwf as [Hi Ho Hn _ _ _ _]. unfold store, ReplayBuffer.store_transition.
    do 2 run_store_row.
    unfold np.as_int64. rewrite Hint. reflexivity.
Qed.

End BufferFacts.

(** * Properties of the step collector *)

Section CollectorFacts.

Context {E Obs RawReward Reward F32 Info Q : Type}.
Context `{!Env E Obs RawReward Info} `{!QNetwork Q Obs}.
Variable float_ : RawReward -> Reward.
Variable as_float32 : Reward -> F32.
Variable episode_line : Info -> option (list Byte.byte).

Lemma slot_at_after_store (tr : Transition Obs Reward) (self : @ReplayBuffer.t Obs F32) :
  wf self ->
  slot_at (after_store as_float32 tr self) (ReplayBuffer.current_idx self)
  = Some (tr_obs tr, tr_next_obs tr, [tr_action tr], as_float32 (tr_reward tr),
          tr_terminated tr).
Proof.
  intros [Hi Ho Hn Ha Hr Ht _]. unfold slot_at, after_store. cbn.
  rewrite !list_lookup_insert_eq by lia. reflexivity.
Qed.

(** C5. A call of [collect_one_step] on a world whose buffer is well formed,
    with [action] the action selected for [obs] and
    [(next_obs, reward, terminated, truncated, info)] the result of the
    environment step: the call returns; the buffer is the old one after
    [store_transition(obs, next_obs, action, float(reward), terminated)], so
    the slot written holds [obs], [next_obs], [action], the reward and the
    environment's [terminated] flag, whatever [truncated] is; the value
    returned is the observation of [env.reset()] when [terminated] or
    [truncated] holds and [next_obs] otherwise, the environment being reset
    in the first case only. *)
Theorem collect_one_step_stores_and_returns
    (q_net : Q) (obs : Obs) (exploration_rate : float) (verbose : Z)
    (w : @World E Obs F32)
    (action : Z) (env1 env2 : E) (rs1 : np.random.RandomState)
    (next_obs : Obs) (reward : RawReward) (terminated truncated : bool) (info : Info) :
  wf (replay_buffer w) ->
  epsilon_greedy_action_selection q_net obs exploration_rate (env w) (np_random w)
  = (action, env1, rs1) ->
  env_step action env1 = ((next_obs, reward, terminated, truncated, info), env2) ->
  np.is_int64 action = true ->
  let stored :=
    {| tr_obs := obs; tr_next_obs := next_obs; tr_action := action;
       tr_reward := float_ reward; tr_terminated := terminated |} in
  let result :=
    collect_one_step float_ as_float32 episode_line q_net obs exploration_rate verbose w in
  replay_buffer (snd result) = after_store as_float32 stored (replay_buffer w) /\
  slot_at (replay_buffer (snd result)) (ReplayBuffer.current_idx (replay_buffer w))
  = Some (obs, next_obs, [action], as_float32 (float_ reward), terminated) /\
  fst result
  = Returns (if terminated || truncated then fst (fst (env_reset env2)) else next_obs) /\
  env (snd result) = (if terminated || truncated then snd (env_reset env2) else env2).
Proof.
  intros Hwf Hselect Hstep Hint stored result.
  assert (Hstore : ReplayBuffer.store_transition as_float32 obs next_obs action
                     (float_ reward) terminated (replay_buffer w)
                   = (Returns tt, after_store as_float32 stored (replay_buffer w))).
  { exact (store_wf as_float32 stored (replay_buffer w) Hwf Hint). }
  assert (Hbuf : replay_buffer (snd result)
                 = after_store as_float32 stored (replay_buffer w)
                 /\ fst result
                    = Returns (if terminated || truncated
                               then fst (fst (env_reset env2)) else next_obs)
                 /\ env (snd result)
                    = (if terminated || truncated then snd (env_reset env2) else env2)).
  { subst result. unfold collect_one_step. rewrite Hselect, Hstep, Hstore.
    destruct (terminated || truncated).
    - destruct (env_reset env2) as [[obs0 info0] env3]. repeat split.
    - repeat split. }
  destruct Hbuf as (Hbuf & Hres & Henv).
  split; [exact Hbuf | split; [| split; assumption]].
  rewrite Hbuf. exact (slot_at_after_store stored (replay_buffer w) Hwf).
Qed.

End CollectorFacts.

(** * Properties of the exploration schedule *)

Lemma float_of_int_in_range (k : Z) :
  Z.abs k < float_overflow_bound ->
  float_of_int k = Returns (SF2Prim (binary_normalize prec emax k 0 false)).
Proof.
  intros Hk. unfold float_of_int.
  destruct (Z.leb_spec float_overflow_bound (Z.abs k)); [lia | reflexivity].
Qed.

(** C6, as the code has it. For integers that convert to a float
    ([0 <= current_step], [1 <= max_steps], both below the overflow bound)
    [linear_schedule] returns [initial + min(current_step / max_steps, 1.0)
    * (final - initial)] evaluated in binary64 arithmetic. For
    [(1.0, 0.1, _, 100)] this is exactly [1.0] at step 0 and exactly [0.55]
    at step 50; at steps 100 and 150 it is [0.09999999999999998], the
    binary64 value of [1.0 + 1.0 * (0.1 - 1.0)], which lies [2^-55] below
    the float [0.1]. *)
Theorem linear_schedule_binary64
    (initial_value final_value : float) (current_step max_steps : Z) :
  0 <= current_step < float_overflow_bound ->
  1 <= max_steps < float_overflow_bound ->
  linear_schedule initial_value final_value current_step max_steps
  = Returns (schedule_formula initial_value final_value current_step max_steps) /\
  linear_schedule 1 0.1 0 100 = Returns 1%float /\
  linear_schedule 1 0.1 50 100 = Returns 0.55%float /\
  linear_schedule 1 0.1 100 100 = Returns 0.09999999999999998%float /\
  linear_schedule 1 0.1 150 100 = Returns 0.09999999999999998%float.
Proof.
  intros Hstep Hmax. split; [| repeat split].
  unfold linear_schedule, truediv.
  rewrite !float_of_int_in_range by lia. cbn.
  destruct (Z.eqb_spec max_steps 0); [lia | reflexivity].
Qed.

(** * Worked instances

    Capacity 4, two actions, the stores of the scenario with actions
    0, 1, 0, then 1, then 0. *)

Abbreviation demo_buffer := (@ReplayBuffer.t Z spec_float).

(** Four stores into four slots: the flag is set and the index is back
    at 0. *)
Lemma is_full_from_capacity_stores_on_witness :
  (exists slots (self : demo_buffer),
      demo_run 4 four_stores = Returns (slots, self) /\
      ReplayBuffer.is_full self = (4 <=? Z.of_nat (length four_stores)) /\
      (Z.of_nat (length four_stores) = 4 -> ReplayBuffer.current_idx self = 0)) /\
  (forall (self : demo_buffer) (tr : Transition Z float),
      ReplayBuffer.is_full self = true ->
      ReplayBuffer.is_full (snd (store float32_of_float tr self)) = true).
Proof.
  apply (is_full_from_capacity_stores_on float32_of_float (S754_zero false)
           4 demo_space demo_actions four_stores).
  - lia.
  - repeat constructor.
Defined.

(** Five stores into four slots: the index is 1 mod 4. *)
Lemma write_index_after_wrap_witness :
  exists slots (self : demo_buffer),
    demo_run 4 five_stores = Returns (slots, self) /\
    ReplayBuffer.current_idx self = 1 mod 4 /\
    ReplayBuffer.upper_bound self = 4.
Proof.
  apply (write_index_after_wrap float32_of_float (S754_zero false)
           4 1 demo_space demo_actions five_stores).
  - lia.
  - lia.
  - repeat constructor.
  - reflexivity.
Defined.

(** Three stores, a hundred draws: every index drawn is one of the written
    slots 0, 1, 2. *)
Lemma sampled_indices_in_populated_range_witness :
  exists slots (self : demo_buffer),
    demo_run 4 three_stores = Returns (slots, self) /\
    (forall indices rs',
        ReplayBuffer.batch_indices 100 self demo_random = (Returns indices, rs') ->
        Forall (fun i =>
                  0 <= i < (if ReplayBuffer.is_full self then 4
                            else ReplayBuffer.current_idx self) /\
                  In i slots) indices) /\
    (0 <= 100 ->
     exists indices rs' batch,
       ReplayBuffer.batch_indices 100 self demo_random = (Returns indices, rs') /\
       ReplayBuffer.sample 100 self demo_random = (Returns batch, rs') /\
       batch_of self indices batch /\
       length indices = Z.to_nat 100).
Proof.
  apply (sampled_indices_in_populated_range float32_of_float (S754_zero false)
           4 demo_space demo_actions three_stores 100 demo_random).
  - lia.
  - repeat constructor.
  - discriminate.
Defined.

(** In that scenario slot 3 is never drawn, whatever the generator and the
    batch size. *)
Lemma unwritten_slot_never_sampled
    (batch_size : Z) (rs rs' : np.random.RandomState) (indices slots : list Z)
    (self : demo_buffer) :
  demo_run 4 three_stores = Returns (slots, self) ->
  ReplayBuffer.batch_indices batch_size self rs = (Returns indices, rs') ->
  ReplayBuffer.is_full self = false /\ ~ In 3 indices.
Proof.
  intros Hrun Hdraw. vm_compute in Hrun.
  assert (Hself : ReplayBuffer.is_full self = false /\ ReplayBuffer.current_idx self = 3)
    by (inversion Hrun; split; reflexivity).
  destruct Hself as [Hfull Hidx]. split; [exact Hfull |]. intros Hin.
  unfold ReplayBuffer.batch_indices in Hdraw.
  apply randint_returned_in_range in Hdraw.
  apply (proj1 (List.Forall_forall _ _) Hdraw) in Hin.
  unfold ReplayBuffer.upper_bound in Hin. rewrite Hfull, Hidx in Hin. lia.
Qed.

(** The fifth store overwrites slot 0: the slot holds the fifth
    transition, the first one is gone. *)
Lemma fifth_store_overwrites_slot_zero (slots : list Z) (self : demo_buffer) :
  demo_run 4 five_stores = Returns (slots, self) ->
  slots = [0; 1; 2; 3; 0] /\
  slot_at self 0 = Some (4, 5, [0], float32_of_float 1, false).
Proof.
  intros Hrun. vm_compute in Hrun. inversion Hrun. split; vm_compute; reflexivity.
Qed.

(** The fourth store of four sets [is_full], although 4 <= 4 stores were
    made. *)
Lemma is_full_at_capacity_stores :
  exists slots (self : demo_buffer),
    demo_run 4 four_stores = Returns (slots, self) /\
    Z.of_nat (length four_stores) <= 4 /\
    ReplayBuffer.is_full self = true /\
    ReplayBuffer.is_full self <> false.
Proof.
  eexists _, _. split; [vm_compute; reflexivity |].
  split; [cbn; lia | split; [reflexivity | discriminate]].
Qed.

Lemma populated_range_up_to_capacity_witness :
  exists slots (self : demo_buffer),
    demo_run 4 three_stores = Returns (slots, self) /\
    ReplayBuffer.upper_bound self = Z.of_nat (length three_stores) /\
    ReplayBuffer.is_full self
    = (1 <=? 4) && (Z.of_nat (length three_stores) =? 4).
Proof.
  apply (populated_range_up_to_capacity float32_of_float (S754_zero false)
           4 demo_space demo_actions three_stores).
  - lia.
  - repeat constructor.
  - cbn. lia.
Defined.

Lemma sampled_shapes_witness :
  exists slots (self : demo_buffer) rs' batch,
    demo_run 4 three_stores = Returns (slots, self) /\
    ReplayBuffer.sample 10 self demo_random = (Returns batch, rs') /\
    shape_2d 1 (ReplayBufferSamples.actions batch) = Some [Z.to_nat 10; 1%nat] /\
    shape_1d (ReplayBufferSamples.rewards batch) = [Z.to_nat 10] /\
    shape_1d (ReplayBufferSamples.terminateds batch) = [Z.to_nat 10] /\
    length (ReplayBufferSamples.observations batch) = Z.to_nat 10 /\
    length (ReplayBufferSamples.next_observations batch) = Z.to_nat 10.
Proof.
  apply (sampled_shapes float32_of_float (S754_zero false)
           4 demo_space demo_actions three_stores 10 demo_random).
  - lia.
  - repeat constructor.
  - discriminate.
  - lia.
Defined.

(** Outside the contract: asked for no transition, [sample] on the fresh
    buffer returns the empty batch. *)
Lemma sample_zero_on_fresh_buffer_returns :
  exists self : demo_buffer,
    ReplayBuffer.__init__ (S754_zero false) 4 demo_space demo_actions = Returns self /\
    ReplayBuffer.upper_bound self = 0 /\
    ReplayBuffer.sample 0 self demo_random = (Returns empty_batch, demo_random).
Proof. eexists. split; [vm_compute; reflexivity | split; vm_compute; reflexivity]. Qed.

(** Ten transitions asked of the fresh buffer of capacity 4. *)
Lemma sample_before_any_store_raises_witness :
  ReplayBuffer.upper_bound (fresh (S754_zero false) 4 demo_space demo_actions) = 0 /\
  ReplayBuffer.sample 10 (fresh (S754_zero false) 4 demo_space demo_actions) demo_random
  = (Raises ValueError, demo_random).
Proof.
  apply (sample_before_any_store_raises
           (fresh (S754_zero false) 4 demo_space demo_actions) 10 demo_random).
  - reflexivity.
  - reflexivity.
  - lia.
Defined.

(** Capacity 0 is accepted by the constructor. *)
Lemma init_with_capacity_zero_returns :
  let capacity := 0 in
  capacity <= 0 /\
  returned (ReplayBuffer.__init__ (Obs := Z) (S754_zero false) capacity
              demo_space demo_actions)
  = true.
Proof. split; [lia | vm_compute; reflexivity]. Qed.

(** Action 7 of a two-action space is stored as it is. *)
Lemma out_of_range_action_is_stored :
  let self : demo_buffer := fresh (S754_zero false) 4 demo_space demo_actions in
  spaces.n (ReplayBuffer.action_space self) = 2 /\
  ~ (0 <= 7 < spaces.n (ReplayBuffer.action_space self)) /\
  exists self',
    ReplayBuffer.store_transition float32_of_float 0 1 7 1%float false self
    = (Returns tt, self') /\
    ReplayBuffer.actions self' !! 0%nat = Some [7].
Proof.
  cbv zeta. split; [reflexivity | split; [cbn; lia |]].
  eexists. split; vm_compute; reflexivity.
Qed.

Lemma store_transition_does_not_check_action_witness :
  store float32_of_float (demo_transition 0 7)
    (fresh (S754_zero false) 4 demo_space demo_actions)
  = (Returns tt,
     after_store float32_of_float (demo_transition 0 7)
       (fresh (S754_zero false) 4 demo_space demo_actions)) /\
  ReplayBuffer.actions
    (after_store float32_of_float (demo_transition 0 7)
       (fresh (S754_zero false) 4 demo_space demo_actions)) !! 0%nat
  = Some [7].
Proof.
  assert (Hwf : wf (fresh (S754_zero false) 4 demo_space demo_actions))
    by (split; cbn; first [lia | reflexivity | repeat constructor]).
  exact (store_transition_does_not_check_action float32_of_float
           (fresh (S754_zero false) 4 demo_space demo_actions)
           (demo_transition 0 7) Hwf).
Defined.

(** One collected step in the toy world: the time limit cuts the episode
    ([truncated] without [terminated]); the stored flag is [false] and the
    observation returned is that of the reset. *)
Lemma collect_one_step_stores_and_returns_witness :
  let result :=
    collect_one_step (fun r : float => r) float32_of_float (fun _ : unit => None)
      tt 1 0%float 0 demo_world in
  replay_buffer (snd result)
  = after_store float32_of_float
      {| tr_obs := 1; tr_next_obs := 2; tr_action := 1;
         tr_reward := 1%float; tr_terminated := false |}
      (replay_buffer demo_world) /\
  slot_at (replay_buffer (snd result)) (ReplayBuffer.current_idx (replay_buffer demo_world))
  = Some (1, 2, [1], float32_of_float 1%float, false) /\
  fst result = Returns (if false || true then 0 else 2) /\
  env (snd result) = (if false || true then 0 else 2).
Proof.
  cbv zeta.
  refine (collect_one_step_stores_and_returns (fun r : float => r) float32_of_float
            (fun _ : unit => None) tt 1 0%float 0 demo_world
            1 1 2 (np.random.advance 1 demo_random) 2 1%float false true tt _ _ _ _).
  - split; cbn; first [lia | reflexivity | repeat constructor].
  - vm_compute. reflexivity.
  - reflexivity.
  - reflexivity.
Defined.

(** At [current_step = max_steps] the schedule does not return the float
    [0.1]. *)
Lemma linear_schedule_end_is_not_final_value :
  0 <= 100 /\ 1 <= 100 /\ linear_schedule 1 0.1 100 100 <> Returns 0.1%float.
Proof.
  split; [lia | split; [lia |]]. intros H.
  apply (f_equal (fun o => match o with
                           | Returns x => Prim2SF x
                           | Raises _ => S754_nan
                           end)) in H.
  vm_compute in H. discriminate H.
Qed.

Lemma linear_schedule_binary64_witness :
  linear_schedule 1 0.1 50 100 = Returns (schedule_formula 1 0.1 50 100) /\
  linear_schedule 1 0.1 0 100 = Returns 1%float /\
  linear_schedule 1 0.1 50 100 = Returns 0.55%float /\
  linear_schedule 1 0.1 100 100 = Returns 0.09999999999999998%float /\
  linear_schedule 1 0.1 150 100 = Returns 0.09999999999999998%float.
Proof.
  apply (linear_schedule_binary64 1 0.1 50 100).
  - split; [lia | vm_compute; reflexivity].
  - split; [lia | vm_compute; reflexivity].
Defined.

(** * Further properties of the replay buffer *)

Section BufferContents.

Context {Obs Reward F32 : Type}.
Variable as_float32 : Reward -> F32.
Variable float32_zero : F32.

Abbreviation buffer := (@ReplayBuffer.t Obs F32).
Abbreviation store := (@store Obs Reward F32 as_float32).
Abbreviation store_all := (@store_all Obs Reward F32 as_float32).
Abbreviation after_store := (@after_store Obs Reward F32 as_float32).
Abbreviation after_failed_store := (@after_failed_store Obs Reward F32).
Abbreviation fresh_then_store := (@fresh_then_store Obs Reward F32 as_float32 float32_zero).
Abbreviation fresh := (@fresh Obs F32 float32_zero).
Abbreviation cells := (@cells Obs Reward F32 as_float32).
Abbreviation zero_cells := (@zero_cells Obs F32 float32_zero).

(** *** One store, failing or not *)

Lemma store_overflow (tr : Transition Obs Reward) (self : buffer) :
  wf self -> np.is_int64 (tr_action tr) = false ->
  store tr self = (Raises OverflowError, after_failed_store tr self).
Proof.
  intros [Hi Ho Hn _ _ _ _] Hint. unfold store, ReplayBuffer.store_transition.
  erewrite (method_bind_returns _ _ self) by (apply store_row_in_range; cbn; lia).
  erewrite method_bind_returns by (apply store_row_in_range; cbn; lia).
  unfold np.as_int64. rewrite Hint. reflexivity.
Qed.

Lemma after_failed_store_wf (tr : Transition Obs Reward) (self : buffer) :
  wf self -> wf (after_failed_store tr self).
Proof.
  intros [Hi Ho Hn Ha Hr Ht Hrows].
  split; unfold after_failed_store; cbn; rewrite ?length_insert; assumption.
Qed.

Lemma slot_at_after_store_other (tr : Transition Obs Reward) (self : buffer) (j : Z) :
  0 <= ReplayBuffer.current_idx self -> 0 <= j -> j <> ReplayBuffer.current_idx self ->
  slot_at (after_store tr self) j = slot_at self j.
Proof.
  intros Hi Hj Hne. unfold slot_at, after_store. cbn.
  rewrite !list_lookup_insert_ne by lia. reflexivity.
Qed.

Lemma slot_at_after_failed_store_other (tr : Transition Obs Reward) (self : buffer)
    (j : Z) :
  0 <= ReplayBuffer.current_idx self -> 0 <= j -> j <> ReplayBuffer.current_idx self ->
  slot_at (after_failed_store tr self) j = slot_at self j.
Proof.
  intros Hi Hj Hne. unfold slot_at, after_failed_store. cbn.
  rewrite !list_lookup_insert_ne by lia. reflexivity.
Qed.

(** X4. A call of [store_transition] on a well-formed buffer, whatever its
    arguments and whether it returns or raises, leaves every slot other
    than the current one as it was. *)
Theorem store_touches_current_slot_only
    (tr : Transition Obs Reward) (self : buffer) (j : Z) :
  wf self -> 0 <= j -> j <> ReplayBuffer.current_idx self ->
  slot_at (snd (store tr self)) j = slot_at self j.
Proof.
  intros Hwf Hj Hne. pose proof (wf_idx _ Hwf) as Hi.
  destruct (np.is_int64 (tr_action tr)) eqn:Hint.
  - rewrite (store_wf as_float32 tr self Hwf Hint). cbn.
    apply slot_at_after_store_other; lia.
  - rewrite (store_overflow tr self Hwf Hint). cbn.
    apply slot_at_after_failed_store_other; lia.
Qed.

(** X5. A store whose action does not fit an int64 cell raises
    OverflowError half-way: the observation and the next observation of
    the current slot have been overwritten, while its action, reward and
    terminated cells, [current_idx] and [is_full] are as before, so the slot
    then mixes two transitions. *)
Theorem failed_store_is_partial
    (tr : Transition Obs Reward) (self : buffer) :
  wf self -> np.is_int64 (tr_action tr) = false ->
  let self' := snd (store tr self) in
  let i := Z.to_nat (ReplayBuffer.current_idx self) in
  fst (store tr self) = Raises OverflowError /\
  ReplayBuffer.observations self' !! i = Some (tr_obs tr) /\
  ReplayBuffer.next_observations self' !! i = Some (tr_next_obs tr) /\
  ReplayBuffer.actions self' = ReplayBuffer.actions self /\
  ReplayBuffer.rewards self' = ReplayBuffer.rewards self /\
  ReplayBuffer.terminateds self' = ReplayBuffer.terminateds self /\
  ReplayBuffer.current_idx self' = ReplayBuffer.current_idx self /\
  ReplayBuffer.is_full self' = ReplayBuffer.is_full self.
Proof.
  intros Hwf Hint. cbv zeta. rewrite (store_overflow tr self Hwf Hint).
  destruct Hwf as [Hi Ho Hn _ _ _ _]. cbn.
  rewrite !list_lookup_insert_eq by lia. repeat split.
Qed.

(** X6. Every call of [store_transition] on a well-formed buffer, returning
    or raising, leaves a well-formed buffer of the same capacity: the five
    arrays keep their length, the write index stays inside
    [[0, buffer_size)]. *)
Theorem store_keeps_well_formed (tr : Transition Obs Reward) (self : buffer) :
  wf self ->
  wf (snd (store tr self)) /\
  ReplayBuffer.buffer_size (snd (store tr self)) = ReplayBuffer.buffer_size self.
Proof.
  intros Hwf. destruct (np.is_int64 (tr_action tr)) eqn:Hint.
  - rewrite (store_wf as_float32 tr self Hwf Hint). cbn.
    split; [apply after_store_wf; exact Hwf | reflexivity].
  - rewrite (store_overflow tr self Hwf Hint). cbn.
    split; [apply after_failed_store_wf; exact Hwf | reflexivity].
Qed.

(** *** The contents after a run of stores *)

Lemma store_all_cons (tr : Transition Obs Reward) (rest : list (Transition Obs Reward))
    (self : buffer) :
  store_all (tr :: rest) self
  = match store tr self with
    | (Returns _, self1) =>
        match store_all rest self1 with
        | (Returns slots, self2) =>
            (Returns (ReplayBuffer.current_idx self :: slots), self2)
        | (Raises e, self2) => (Raises e, self2)
        end
    | (Raises e, self1) => (Raises e, self1)
    end.
Proof.
  cbn [store_all].
  unfold mbind, ReplayBuffer.method_bind, ReplayBuffer.attr, mret, ReplayBuffer.method_ret.
  destruct (store tr self) as [[[] | e] self1]; [| reflexivity].
  destruct (store_all rest self1) as [[slots | e] self2]; reflexivity.
Qed.

Lemma store_all_snoc (trs : list (Transition Obs Reward)) (tr : Transition Obs Reward) :
  forall (self self' : buffer) (slots : list Z),
    store_all trs self = (Returns slots, self') ->
    store_all (trs ++ [tr]) self
    = match store tr self' with
      | (Returns _, self'') =>
          (Returns (slots ++ [ReplayBuffer.current_idx self']), self'')
      | (Raises e, self'') => (Raises e, self'')
      end.
Proof.
  induction trs as [| t rest IH]; intros self self' slots Hrun.
  - cbn in Hrun. injection Hrun as <- <-. cbn [app]. rewrite store_all_cons.
    destruct (store tr self) as [[[] | e] self1]; reflexivity.
  - cbn [app]. rewrite store_all_cons in Hrun |- *.
    destruct (store t self) as [[[] | e] self1]; [| discriminate].
    destruct (store_all rest self1) as [[slots1 | e] self2] eqn:Hrest; [| discriminate].
    injection Hrun as <- <-. rewrite (IH self1 self2 slots1 Hrest).
    destruct (store tr self2) as [[[] | e] self3]; reflexivity.
Qed.

Lemma slots_from_snoc (C : Z) (n : nat) :
  slots_from C 0 (S n) = slots_from C 0 n ++ [Z.of_nat n mod C].
Proof.
  unfold slots_from. rewrite seq_S, map_app. cbn. reflexivity.
Qed.

Lemma mod_apart (C i n : Z) :
  1 <= C -> 0 <= i < n -> n < i + C -> i mod C <> n mod C.
Proof.
  intros HC Hi Hn Heq.
  assert (Hz : (n - i) mod C = 0) by (rewrite Zminus_mod, Heq, Z.sub_diag; apply Z.mod_0_l; lia).
  rewrite Z.mod_small in Hz by lia. lia.
Qed.

Lemma slot_at_fresh (capacity : Z) (space : spaces.Box Obs) (acts : spaces.Discrete)
    (j : Z) :
  0 <= j < capacity -> slot_at (fresh capacity space acts) j = Some (zero_cells space).
Proof.
  intros Hj. unfold slot_at, fresh, zero_cells. cbn.
  assert (Hlook : forall {A} (z : A), replicate (Z.to_nat capacity) z !! Z.to_nat j = Some z).
  { intros A z. apply lookup_replicate. split; [reflexivity | lia]. }
  rewrite !Hlook. reflexivity.
Qed.

(** What the slots hold after the stores of [trs] on a fresh buffer. *)
Lemma run_contents (capacity : Z) (space : spaces.Box Obs) (acts : spaces.Discrete)
    (trs : list (Transition Obs Reward)) :
  1 <= capacity -> Forall storable trs ->
  exists self,
    store_all trs (fresh capacity space acts)
    = (Returns (slots_from capacity 0 (length trs)), self) /\
    counted capacity (Z.of_nat (length trs)) self /\
    (forall (i : nat) (tr : Transition Obs Reward),
        trs !! i = Some tr -> Z.of_nat (length trs) <= Z.of_nat i + capacity ->
        slot_at self (Z.of_nat i mod capacity) = Some (cells tr)) /\
    (forall j : Z,
        Z.of_nat (length trs) <= j < capacity ->
        slot_at self j = Some (zero_cells space)).
Proof.
  intros HC. induction trs as [| tr trs IH] using rev_ind; intros Hs.
  - exists (fresh capacity space acts). split; [reflexivity |].
    split; [apply fresh_counted; exact HC |]. split.
    + intros i tr Hlook. rewrite lookup_nil in Hlook. discriminate.
    + intros j Hj. apply slot_at_fresh. cbn in Hj. lia.
  - apply Forall_app in Hs as [Hs Htr]. apply List.Forall_inv in Htr.
    destruct (IH Hs) as (self & Hrun & Hcnt & Hheld & Hzero).
    pose proof Hcnt as (Hwf & Hcap & Hidx & _).
    pose proof (Z.mod_pos_bound (Z.of_nat (length trs)) capacity ltac:(lia)) as Hmod.
    exists (after_store tr self). rewrite length_app. cbn [length].
    replace (length trs + 1)%nat with (S (length trs)) by lia.
    split; [| split; [| split]].
    + rewrite (store_all_snoc trs tr _ _ _ Hrun), (store_wf as_float32 tr self Hwf Htr).
      rewrite slots_from_snoc, Hidx. reflexivity.
    + replace (Z.of_nat (S (length trs))) with (Z.of_nat (length trs) + 1) by lia.
      apply after_store_counted; [lia | exact Hcnt].
    + intros i t Hlook Hrecent.
      destruct (decide (i = length trs)) as [-> | Hne].
      * rewrite list_lookup_middle in Hlook by reflexivity. injection Hlook as <-.
        rewrite <- Hidx. apply slot_at_after_store. exact Hwf.
      * assert (Hlt : (i < length trs)%nat).
        { apply lookup_lt_Some in Hlook. rewrite length_app in Hlook. cbn in Hlook. lia. }
        rewrite lookup_app_l in Hlook by exact Hlt.
        rewrite slot_at_after_store_other.
        -- apply Hheld; [exact Hlook | lia].
        -- lia.
        -- pose proof (Z.mod_pos_bound (Z.of_nat i) capacity ltac:(lia)). lia.
        -- rewrite Hidx. apply mod_apart; lia.
    + intros j Hj. rewrite slot_at_after_store_other.
      * apply Hzero. lia.
      * lia.
      * lia.
      * rewrite Hidx, Z.mod_small by lia. lia.
Qed.

(** X1. After the stores of [trs] on a fresh buffer of capacity
    [capacity], each of the last [capacity] transitions stored (all of them
    while fewer were stored) is held, the [i]-th one in slot
    [i mod capacity], with its observation, next observation, action,
    reward (as a float32 cell) and terminated flag. *)
Theorem buffer_holds_last_transitions
    (capacity : Z) (space : spaces.Box Obs) (acts : spaces.Discrete)
    (trs : list (Transition Obs Reward)) (i : nat) (tr : Transition Obs Reward) :
  1 <= capacity -> Forall storable trs ->
  trs !! i = Some tr -> Z.of_nat (length trs) <= Z.of_nat i + capacity ->
  exists slots self,
    fresh_then_store capacity space acts trs = Returns (slots, self) /\
    slots !! i = Some (Z.of_nat i mod capacity) /\
    slot_at self (Z.of_nat i mod capacity) = Some (cells tr).
Proof.
  intros HC Hs Hlook Hrecent.
  destruct (run_contents capacity space acts trs HC Hs) as (self & Hrun & _ & Hheld & _).
  exists (slots_from capacity 0 (length trs)), self. split; [| split].
  - unfold fresh_then_store. rewrite (init_nonneg float32_zero) by lia.
    unfold mbind, outcome_bind. rewrite Hrun. reflexivity.
  - unfold slots_from. apply lookup_lt_Some in Hlook.
    change (map ?f ?l) with (f <$> l). rewrite list_lookup_fmap, lookup_seq_lt by exact Hlook.
    cbn. reflexivity.
  - apply Hheld; assumption.
Qed.

(** X2. While fewer than [capacity] transitions have been stored, every
    slot from the number stored on still holds the zero row of the
    constructor. *)
Theorem unwritten_slots_hold_zeros
    (capacity : Z) (space : spaces.Box Obs) (acts : spaces.Discrete)
    (trs : list (Transition Obs Reward)) (j : Z) :
  1 <= capacity -> Forall storable trs ->
  Z.of_nat (length trs) <= j < capacity ->
  exists slots self,
    fresh_then_store capacity space acts trs = Returns (slots, self) /\
    slot_at self j = Some (zero_cells space).
Proof.
  intros HC Hs Hj.
  destruct (run_contents capacity space acts trs HC Hs) as (self & Hrun & _ & _ & Hzero).
  exists (slots_from capacity 0 (length trs)), self. split.
  - unfold fresh_then_store. rewrite (init_nonneg float32_zero) by lia.
    unfold mbind, outcome_bind. rewrite Hrun. reflexivity.
  - apply Hzero. exact Hj.
Qed.

(** *** What a sampled batch holds *)

Lemma recent_index (C n idx : Z) :
  1 <= C -> 0 <= idx < Z.min n C ->
  exists i : nat, Z.of_nat i < n <= Z.of_nat i + C /\ Z.of_nat i mod C = idx.
Proof.
  intros HC Hidx.
  pose proof (Z.div_mod (n - 1 - idx) C ltac:(lia)) as Hdm.
  pose proof (Z.mod_pos_bound (n - 1 - idx) C ltac:(lia)) as Hr.
  pose proof (Z.div_pos (n - 1 - idx) C ltac:(lia) ltac:(lia)) as Hq.
  exists (Z.to_nat (idx + C * ((n - 1 - idx) / C))).
  rewrite Z2Nat.id by nia. split; [nia |].
  symmetry. apply Z.mod_unique_pos with (q := (n - 1 - idx) / C); lia.
Qed.

Lemma batch_row_gathered (self : buffer) (indices : list Z)
    (batch : ReplayBufferSamples.t Obs F32) (k : nat) (idx : Z) :
  batch_of self indices batch -> indices !! k = Some idx ->
  batch_row batch k = slot_at self idx.
Proof.
  intros (Go & Gn & Ga & Gr & Gd) Hk. unfold gathered in *.
  destruct (Forall2_lookup_l _ _ _ _ _ Go Hk) as (o & Ho & Ho').
  destruct (Forall2_lookup_l _ _ _ _ _ Gn Hk) as (n & Hn & Hn').
  destruct (Forall2_lookup_l _ _ _ _ _ Ga Hk) as (a & Ha & Ha').
  destruct (Forall2_lookup_l _ _ _ _ _ Gr Hk) as (r & Hr & Hr').
  destruct (Forall2_lookup_l _ _ _ _ _ Gd Hk) as (d & Hd & Hd').
  unfold batch_row, slot_at. rewrite Ho, Hn, Ha, Hr, Hd, Ho', Hn', Ha', Hr', Hd'.
  reflexivity.
Qed.

(** X3. On a buffer reached from a fresh one by the stores of a non-empty
    [trs], every row of the batch [sample(batch_size)] returns is, across
    all five collections, one of the last [capacity] transitions stored:
    never a zero row of the constructor, never an overwritten transition,
    never a mix of two transitions. *)
Theorem sampled_rows_are_stored_transitions
    (capacity : Z) (space : spaces.Box Obs) (acts : spaces.Discrete)
    (trs : list (Transition Obs Reward)) (batch_size : Z)
    (rs : np.random.RandomState) :
  1 <= capacity -> Forall storable trs -> trs <> [] -> 0 <= batch_size ->
  exists slots self rs' batch,
    fresh_then_store capacity space acts trs = Returns (slots, self) /\
    ReplayBuffer.sample batch_size self rs = (Returns batch, rs') /\
    forall k : nat,
      (k < Z.to_nat batch_size)%nat ->
      exists (i : nat) (tr : Transition Obs Reward),
        trs !! i = Some tr /\
        Z.of_nat (length trs) <= Z.of_nat i + capacity /\
        batch_row batch k = Some (cells tr).
Proof.
  intros HC Hs Hne Hsize.
  destruct (run_contents capacity space acts trs HC Hs)
    as (self & Hrun & Hcnt & Hheld & _).
  assert (Hn : 1 <= Z.of_nat (length trs)) by (destruct trs; [contradiction | cbn; lia]).
  pose proof (counted_upper_bound capacity (Z.of_nat (length trs)) self HC
                ltac:(lia) Hcnt) as Hub.
  pose proof Hcnt as (Hwf & Hcap & _ & _).
  assert (Hpop : 0 < ReplayBuffer.upper_bound self <= ReplayBuffer.buffer_size self)
    by lia.
  destruct (sample_in_range self batch_size rs Hwf Hpop Hsize)
    as (indices & rs' & batch & _ & Hsample & Hlen & Hrange & Hbatch).
  exists (slots_from capacity 0 (length trs)), self, rs', batch.
  split; [| split; [exact Hsample |]].
  - unfold fresh_then_store. rewrite (init_nonneg float32_zero) by lia.
    unfold mbind, outcome_bind. rewrite Hrun. reflexivity.
  - intros k Hk.
    destruct (lookup_lt_is_Some_2 indices k ltac:(lia)) as [idx Hidx].
    pose proof (proj1 (Forall_lookup _ _) Hrange k idx Hidx) as Hin. cbn in Hin.
    destruct (recent_index capacity (Z.of_nat (length trs)) idx HC ltac:(lia))
      as (i & Hi & Hmod).
    destruct (lookup_lt_is_Some_2 trs i ltac:(lia)) as [tr Htr].
    exists i, tr. split; [exact Htr | split; [lia |]].
    rewrite (batch_row_gathered self indices batch k idx Hbatch Hidx), <- Hmod.
    apply Hheld; [exact Htr | lia].
Qed.

End BufferContents.

(** * Further properties of the step collector and the schedule *)

Section CollectLoopFacts.

Context {E Obs RawReward Reward F32 Info Q : Type}.
Context `{!Env E Obs RawReward Info} `{!QNetwork Q Obs}.
Variable float_ : RawReward -> Reward.
Variable as_float32 : Reward -> F32.
Variable episode_line : Info -> option (list Byte.byte).

Lemma epsilon_greedy_int64 (q_net : Q) (obs : Obs) (exploration_rate : float)
    (e : E) (rs : np.random.RandomState) :
  int64_actions (E := E) (Q := Q) ->
  np.is_int64 (fst (fst (epsilon_greedy_action_selection q_net obs exploration_rate e rs)))
  = true.
Proof.
  intros [Hsample Hgreedy]. unfold epsilon_greedy_action_selection.
  destruct (np.random.rand rs) as [coin rs'].
  destruct (coin <? exploration_rate)%float.
  - specialize (Hsample e). destruct (env_action_space_sample e). exact Hsample.
  - apply Hgreedy.
Qed.

(** One collected step on a well-formed buffer returns and adds one store. *)
Lemma collect_one_step_adds_a_store (q_net : Q) (obs : Obs) (exploration_rate : float)
    (verbose : Z) (w : @World E Obs F32) :
  int64_actions (E := E) (Q := Q) -> wf (replay_buffer w) ->
  exists (obs' : Obs) (tr : Transition Obs Reward),
    fst (collect_one_step float_ as_float32 episode_line q_net obs
           exploration_rate verbose w) = Returns obs' /\
    replay_buffer (snd (collect_one_step float_ as_float32 episode_line q_net obs
                          exploration_rate verbose w))
    = after_store as_float32 tr (replay_buffer w).
Proof.
  intros Hint Hwf.
  pose proof (epsilon_greedy_int64 q_net obs exploration_rate (env w) (np_random w) Hint)
    as Haction.
  unfold collect_one_step.
  destruct (epsilon_greedy_action_selection q_net obs exploration_rate (env w)
              (np_random w)) as [[action env1] rs1].
  cbn in Haction.
  destruct (env_step action env1) as [[[[[next_obs reward] terminated] truncated] info] env2].
  pose (tr := {| tr_obs := obs; tr_next_obs := next_obs; tr_action := action;
                 tr_reward := float_ reward; tr_terminated := terminated |}).
  pose proof (store_wf as_float32 tr (replay_buffer w) Hwf Haction) as Hstore.
  unfold store in Hstore. cbn in Hstore. rewrite Hstore.
  destruct (terminated || truncated).
  - destruct (env_reset env2) as [[obs0 info0] env3]. exists obs0, tr. split; reflexivity.
  - exists next_obs, tr. split; reflexivity.
Qed.

(** X7. The collection loop of the notebook: when the environment and the
    Q-network only produce actions that fit an int64 cell, [n] calls of
    [collect_one_step] on a buffer of capacity [C >= 1] that has seen [k]
    stores all return and leave the buffer as [k + n] stores do:
    [current_idx] is [(k + n) mod C] and [is_full] tells whether
    [C <= k + n]. *)
Theorem collect_steps_count
    (n : nat) (q_net : Q) (obs : Obs) (exploration_rate : float) (verbose : Z)
    (w : @World E Obs F32) (C k : Z) :
  int64_actions (E := E) (Q := Q) -> 1 <= C -> 0 <= k ->
  counted C k (replay_buffer w) ->
  let result :=
    collect_steps float_ as_float32 episode_line n q_net obs exploration_rate verbose w in
  returned (fst result) = true /\
  ReplayBuffer.current_idx (replay_buffer (snd result)) = (k + Z.of_nat n) mod C /\
  ReplayBuffer.is_full (replay_buffer (snd result)) = (C <=? k + Z.of_nat n) /\
  ReplayBuffer.buffer_size (replay_buffer (snd result)) = C.
Proof.
  intros Hint HC. cbv zeta. revert obs w k.
  induction n as [| n IH]; intros obs w k Hk Hcnt.
  - cbn. rewrite Z.add_0_r. destruct Hcnt as (_ & Hcap & Hidx & Hfull). auto.
  - cbn [collect_steps].
    pose proof Hcnt as (Hwf & _).
    destruct (collect_one_step_adds_a_store q_net obs exploration_rate verbose w Hint Hwf)
      as (obs' & tr & Hres & Hbuf).
    destruct (collect_one_step float_ as_float32 episode_line q_net obs
                exploration_rate verbose w) as [res w'].
    cbn in Hres, Hbuf. subst res.
    replace (k + Z.of_nat (S n)) with (k + 1 + Z.of_nat n) by lia.
    apply IH; [lia |]. rewrite Hbuf. apply after_store_counted; [lia | exact Hcnt].
Qed.

End CollectLoopFacts.

(** X8. How [linear_schedule] fails: with OverflowError when
    [current_step], or else [max_steps], is too large in magnitude to
    convert to a float; otherwise with ZeroDivisionError when [max_steps]
    is 0; in every other case, negative steps and negative [max_steps]
    included, it returns the interpolation formula. *)
Theorem linear_schedule_failures
    (initial_value final_value : float) (current_step max_steps : Z) :
  linear_schedule initial_value final_value current_step max_steps
  = if float_overflow_bound <=? Z.abs current_step then Raises OverflowError
    else if float_overflow_bound <=? Z.abs max_steps then Raises OverflowError
    else if max_steps =? 0 then Raises ZeroDivisionError
    else Returns (schedule_formula initial_value final_value current_step max_steps).
Proof.
  unfold linear_schedule, truediv, float_of_int.
  destruct (float_overflow_bound <=? Z.abs current_step); [reflexivity |].
  destruct (float_overflow_bound <=? Z.abs max_steps); [reflexivity |].
  cbn. destruct (max_steps =? 0); reflexivity.
Qed.

(** * Properties of the grid world *)

Section GridworldFacts.

Import Gridworld.

Lemma int_lt_float_neg_half (i : Z) : int_lt_float i (-0.5) = (i <? 0).
Proof.
  unfold int_lt_float. destruct (Qle_bool (-0.5) (inject_Z i)) eqn:E.
  - apply Qle_bool_iff in E. unfold Qle in E. cbn in E.
    symmetry. apply Z.ltb_ge. lia.
  - apply not_true_iff_false in E. rewrite Qle_bool_iff in E. unfold Qle in E. cbn in E.
    symmetry. apply Z.ltb_lt. lia.
Qed.

Lemma int_gt_float_four_and_half (i : Z) : int_gt_float i 4.5 = (4 <? i).
Proof.
  unfold int_gt_float. destruct (Qle_bool (inject_Z i) 4.5) eqn:E.
  - apply Qle_bool_iff in E. unfold Qle in E. cbn in E.
    symmetry. apply Z.ltb_ge. lia.
  - apply not_true_iff_false in E. rewrite Qle_bool_iff in E. unfold Qle in E. cbn in E.
    symmetry. apply Z.ltb_lt. lia.
Qed.

(** X9. For integer coordinates, [is_legal_state] holds exactly of the
    25 cells [(i, j)] with [0 <= i <= 4] and [0 <= j <= 4]: the float
    thresholds -0.5 and 4.5 cut between the integers. *)
Theorem is_legal_state_iff (i j : Z) :
  is_legal_state (i, j) = true <-> 0 <= i <= 4 /\ 0 <= j <= 4.
Proof.
  unfold is_legal_state. cbn [fst snd].
  rewrite !int_lt_float_neg_half, !int_gt_float_four_and_half.
  destruct (Z.ltb_spec i 0), (Z.ltb_spec 4 i), (Z.ltb_spec j 0), (Z.ltb_spec 4 j);
    cbn; split; intros; try lia; try discriminate; reflexivity.
Qed.

(** *** The transition kernel *)

Lemma state_eqb_eq (s t : state) : state_eqb s t = true <-> s = t.
Proof.
  destruct s as [i j], t as [i' j']. unfold state_eqb. cbn [fst snd].
  rewrite andb_true_iff, !Z.eqb_eq. split.
  - intros [-> ->]. reflexivity.
  - intros [= -> ->]. split; reflexivity.
Qed.

Lemma state_eqb_neq (s t : state) : state_eqb s t = false <-> s <> t.
Proof. rewrite <- state_eqb_eq. symmetry. apply not_true_iff_false. Qed.

Lemma kernel_stays_legal (s : state) (a : string) :
  is_legal_state s = true -> is_action a ->
  exists (r : Z) (s' : state),
    get_reward_state s a = Value (r, s') /\ is_legal_state s' = true /\ is_reward r.
Proof.
  intros Hlegal Ha. unfold get_reward_state, is_reward.
  destruct (state_eqb s (1, 4)).
  { exists 10, (1, 0). split; [reflexivity | split; [reflexivity | tauto]]. }
  destruct (state_eqb s (3, 4)).
  { exists 5, (3, 2). split; [reflexivity | split; [reflexivity | tauto]]. }
  destruct Ha as [-> | [-> | [-> | ->]]]; cbn;
    match goal with
    | |- context [is_legal_state ?next] =>
        destruct (is_legal_state next) eqn:Hnext;
        [ exists 0, next; split; [reflexivity | split; [exact Hnext | tauto]]
        | exists (-1), s; split; [reflexivity | split; [exact Hlegal | tauto]] ]
    end.
Qed.

(** X10. From a legal state and with one of the four actions,
    [get_reward_state] returns a legal next state and one of the rewards
    10, 5, 0, -1: the walk never leaves the grid. *)
Theorem get_reward_state_stays_legal (s : state) (a : string) :
  is_legal_state s = true -> is_action a ->
  exists (r : Z) (s' : state),
    get_reward_state s a = Value (r, s') /\ is_legal_state s' = true /\ is_reward r.
Proof.
  intros Hlegal Ha. unfold get_reward_state, is_reward.
  destruct (state_eqb s (1, 4)).
  { exists 10, (1, 0). split; [reflexivity | split; [reflexivity | tauto]]. }
  destruct (state_eqb s (3, 4)).
  { exists 5, (3, 2). split; [reflexivity | split; [reflexivity | tauto]]. }
  destruct Ha as [-> | [-> | [-> | ->]]]; cbn;
    match goal with
    | |- context [is_legal_state ?next] =>
        destruct (is_legal_state next) eqn:Hnext;
        [ exists 0, next; split; [reflexivity | split; [exact Hnext | tauto]]
        | exists (-1), s; split; [reflexivity | split; [exact Hlegal | tauto]] ]
    end.
Qed.

(** X11. What the rewards tell: whenever [get_reward_state] returns, for
    any state at all, the reward is 10 exactly at state [(1, 4)], 5 exactly
    at state [(3, 4)], and -1 exactly when the next state is the state
    itself (the move was refused); otherwise it is 0. *)
Theorem get_reward_state_rewards (s s' : state) (a : string) (r : Z) :
  get_reward_state s a = Value (r, s') ->
  (r = 10 <-> s = (1, 4)) /\ (r = 5 <-> s = (3, 4)) /\ (r = -1 <-> s' = s) /\
  is_reward r.
Proof.
  unfold get_reward_state, is_reward. destruct s as [i j].
  destruct (state_eqb (i, j) (1, 4)) eqn:E1.
  { apply state_eqb_eq in E1. injection E1 as -> ->. intros [= <- <-].
    repeat split; intros; (reflexivity || discriminate || lia || auto). }
  destruct (state_eqb (i, j) (3, 4)) eqn:E2.
  { apply state_eqb_eq in E2. injection E2 as -> ->. intros [= <- <-].
    repeat split; intros; (reflexivity || discriminate || lia || auto). }
  apply state_eqb_neq in E1, E2. cbn [fst snd].
  repeat match goal with
         | |- context [String.eqb a ?letter] => destruct (String.eqb a letter)
         end;
    try discriminate;
    match goal with
    | |- context [is_legal_state ?next] => destruct (is_legal_state next)
    end;
    intros [= <- <-];
    (repeat split; intros; try reflexivity; try lia; try contradiction; auto 6;
     match goal with
     | H : (_, _) = (_, _) |- _ => injection H; intros; lia
     end).
Qed.

(** X12. With an action that is none of ['N'], ['S'], ['W'], ['E'],
    [get_reward_state] fails on the unbound [next_state], except at the two
    special states, where the action is not looked at. *)
Theorem get_reward_state_unknown_action (s : state) (a : string) :
  ~ is_action a ->
  get_reward_state s a
  = if state_eqb s (1, 4) then Value (10, (1, 0))
    else if state_eqb s (3, 4) then Value (5, (3, 2))
    else UnboundLocalError.
Proof.
  intros Ha. unfold get_reward_state, is_action in *.
  destruct (state_eqb s (1, 4)); [reflexivity |].
  destruct (state_eqb s (3, 4)); [reflexivity |].
  destruct (String.eqb_spec a "N"); [tauto |].
  destruct (String.eqb_spec a "S"); [tauto |].
  destruct (String.eqb_spec a "W"); [tauto |].
  destruct (String.eqb_spec a "E"); [tauto |].
  reflexivity.
Qed.

(** *** The simulation *)

Lemma action_to_take_spec (s : state) (rs : np.random.RandomState) :
  is_action (fst (action_to_take s rs)) /\
  snd (action_to_take s rs) = np.random.advance 1 rs.
Proof.
  unfold action_to_take, is_action, np.random.rand.
  repeat match goal with
         | |- context [PrimFloat.ltb ?x ?y] => destruct (PrimFloat.ltb x y)
         end; cbn; auto.
Qed.

Lemma run_loop_walk (steps : nat) :
  forall (s : state) (state_list : list state) (action_list : list string)
         (reward_list : list Z) (rs : np.random.RandomState),
  exists states actions rewards last,
    run_loop steps s state_list action_list reward_list rs
    = (Value (state_list ++ states, action_list ++ actions, reward_list ++ rewards),
       np.random.advance steps rs) /\
    length states = steps /\ length actions = steps /\ length rewards = steps /\
    Forall is_action actions /\
    walk s states actions rewards last.
Proof.
  induction steps as [| steps IH]; intros s sl al rl rs.
  - exists [], [], [], s. cbn. rewrite !app_nil_r.
    replace (np.random.advance 0 rs) with rs
      by (destruct rs; unfold np.random.advance; cbn; f_equal; lia).
    repeat split. constructor.
  - cbn [run_loop].
    destruct (action_to_take_spec s rs) as [Ha Hrs].
    destruct (action_to_take s rs) as [a rs1]. cbn in Ha, Hrs. subst rs1.
    destruct (get_reward_state s a) as [[r next] |] eqn:Hstep.
    + destruct (IH next (sl ++ [s]) (al ++ [a]) (rl ++ [r]) (np.random.advance 1 rs))
        as (states & actions & rewards & last & Hrun & Hls & Hla & Hlr & Hacts & Hwalk).
      exists (s :: states), (a :: actions), (r :: rewards), last.
      rewrite Hrun, <- !app_assoc. cbn.
      replace (np.random.advance steps (np.random.advance 1 rs))
        with (np.random.advance (S steps) rs)
        by (unfold np.random.advance; cbn; f_equal; lia).
      repeat split; try (f_equal; assumption).
      * constructor; assumption.
      * exists next. split; [exact Hstep | exact Hwalk].
    + exfalso. destruct Ha as [-> | [-> | [-> | ->]]];
        unfold get_reward_state in Hstep;
        destruct (state_eqb s (1, 4)); try discriminate;
        destruct (state_eqb s (3, 4)); try discriminate;
        cbn in Hstep;
        match type of Hstep with
        | context [is_legal_state ?next] => destruct (is_legal_state next)
        end; discriminate.
Qed.

(** X13. [run_gridworld] returns for every [MAX_TIME], initial state and
    generator state (it never meets the unbound [next_state]); it consumes
    one random draw per step; its three lists have [max(MAX_TIME, 0)]
    entries each, the actions are among the four letters, and the lists
    record a walk from [init_state]: each recorded state is followed by the
    next state [get_reward_state] gives for the recorded action, with the
    recorded reward. *)
Theorem run_gridworld_records_a_walk
    (MAX_TIME : Z) (init_state : state) (rs : np.random.RandomState) :
  exists states actions rewards last,
    run_gridworld MAX_TIME init_state rs
    = (Value (states, actions, rewards), np.random.advance (Z.to_nat MAX_TIME) rs) /\
    length states = Z.to_nat MAX_TIME /\
    length actions = Z.to_nat MAX_TIME /\
    length rewards = Z.to_nat MAX_TIME /\
    Forall is_action actions /\
    walk init_state states actions rewards last.
Proof.
  unfold run_gridworld.
  destruct (run_loop_walk (Z.to_nat MAX_TIME) init_state [] [] [] rs)
    as (states & actions & rewards & last & Hrun & H).
  exists states, actions, rewards, last. split; [exact Hrun | exact H].
Qed.

Lemma walk_legal (states : list state) :
  forall (s : state) (actions : list string) (rewards : list Z) (last : state),
    is_legal_state s = true -> Forall is_action actions ->
    walk s states actions rewards last ->
    Forall (fun s' => is_legal_state s' = true) states /\
    is_legal_state last = true /\
    Forall is_reward rewards.
Proof.
  induction states as [| s0 states IH]; intros s actions rewards last Hlegal Hacts Hwalk.
  - destruct actions, rewards; cbn in Hwalk; try contradiction. subst last.
    repeat split; (constructor || assumption).
  - destruct actions as [| a actions], rewards as [| r rewards];
      cbn in Hwalk; try contradiction.
    destruct Hwalk as (-> & next & Hstep & Hwalk).
    apply Forall_cons in Hacts as [Ha Hacts].
    destruct (kernel_stays_legal s a Hlegal Ha) as (r' & s' & Hstep' & Hs' & Hr').
    rewrite Hstep in Hstep'. injection Hstep' as <- <-.
    destruct (IH next actions rewards last Hs' Hacts Hwalk) as (Hall & Hlast & Hrs).
    repeat split; (constructor || assumption); assumption.
Qed.

(** X14. Started in a legal state, [run_gridworld] only records legal
    states and rewards among 10, 5, 0, -1. *)
Theorem run_gridworld_stays_legal
    (MAX_TIME : Z) (init_state : state) (rs : np.random.RandomState) :
  is_legal_state init_state = true ->
  exists states actions rewards rs',
    run_gridworld MAX_TIME init_state rs = (Value (states, actions, rewards), rs') /\
    Forall (fun s => is_legal_state s = true) states /\
    Forall is_reward rewards.
Proof.
  intros Hlegal. unfold run_gridworld.
  destruct (run_loop_walk (Z.to_nat MAX_TIME) init_state [] [] [] rs)
    as (states & actions & rewards & last & Hrun & _ & _ & _ & Hacts & Hwalk).
  destruct (walk_legal states init_state actions rewards last Hlegal Hacts Hwalk)
    as (Hall & _ & Hrs).
  exists states, actions, rewards, (np.random.advance (Z.to_nat MAX_TIME) rs).
  split; [exact Hrun | split; assumption].
Qed.

(** *** The returns *)

Lemma kernel_reward (s s' : state) (a : string) (r : Z) :
  get_reward_state s a = Value (r, s') -> is_reward r.
Proof.
  unfold get_reward_state, is_reward.
  destruct (state_eqb s (1, 4)); [intros [= <- _]; tauto |].
  destruct (state_eqb s (3, 4)); [intros [= <- _]; tauto |].
  repeat match goal with
         | |- context [String.eqb a ?letter] => destruct (String.eqb a letter)
         end;
    try discriminate;
    match goal with
    | |- context [is_legal_state ?next] => destruct (is_legal_state next)
    end;
    intros [= <- _]; tauto.
Qed.

Lemma walk_rewards (states : list state) :
  forall (s : state) (actions : list string) (rewards : list Z) (last : state),
    walk s states actions rewards last -> Forall is_reward rewards.
Proof.
  induction states as [| s0 states IH]; intros s actions rewards last Hwalk.
  - destruct actions, rewards; cbn in Hwalk; try contradiction. constructor.
  - destruct actions as [| a actions], rewards as [| r rewards];
      cbn in Hwalk; try contradiction.
    destruct Hwalk as (-> & next & Hstep & Hwalk).
    constructor; [exact (kernel_reward _ _ _ _ Hstep) | exact (IH _ _ _ _ Hwalk)].
Qed.

Lemma is_reward_convertible (r : Z) : is_reward r -> convertible r.
Proof.
  unfold is_reward, convertible, float_overflow_bound.
  intros [-> | [-> | [-> | ->]]]; vm_compute; reflexivity.
Qed.

Lemma bind_returns {A B} (a : A) (k : A -> outcome B) : (Returns a ≫= k) = k a.
Proof. reflexivity. Qed.

Lemma list_getitem_last {A} (l : list A) (x : A) :
  last l = Some x -> list_getitem l (-1) = Returns x.
Proof.
  intros Hlast. rewrite last_lookup in Hlast.
  assert (Hlen : (0 < length l)%nat) by (apply lookup_lt_Some in Hlast; lia).
  unfold list_getitem, np.getitem, np.axis_index.
  destruct (Z.leb_spec 0 (-1)); [lia |]. cbn [andb].
  destruct (Z.leb_spec (- Z.of_nat (length l)) (-1)); [| lia].
  destruct (Z.ltb_spec (-1) 0); [| lia]. cbn.
  replace (Z.to_nat (Z.of_nat (length l) + -1)) with (pred (length l)) by lia.
  rewrite Hlast. reflexivity.
Qed.

Lemma list_setitem_last {A} (l : list A) (v : A) :
  (0 < length l)%nat ->
  list_setitem l (-1) v = Returns (<[pred (length l) := v]> l).
Proof.
  intros Hlen. unfold list_setitem, np.setitem, np.axis_index.
  destruct (Z.leb_spec 0 (-1)); [lia |]. cbn [andb].
  destruct (Z.leb_spec (- Z.of_nat (length l)) (-1)); [| lia].
  destruct (Z.ltb_spec (-1) 0); [| lia]. cbn.
  replace (Z.to_nat (Z.of_nat (length l) + -1)) with (pred (length l)) by lia.
  reflexivity.
Qed.

Lemma float_mul_ok (gamma : float) (g : number) :
  number_ok g -> float_mul gamma g = Returns (gamma * to_float g)%float.
Proof.
  destruct g as [z | f]; cbn; intros Hok; [| reflexivity].
  rewrite float_of_int_in_range by exact Hok. reflexivity.
Qed.

Lemma int_add_float_ok (r : Z) (x : float) :
  convertible r -> int_add_float r x = Returns (to_float (Int r) + x)%float.
Proof.
  intros Hok. unfold int_add_float. rewrite float_of_int_in_range by exact Hok.
  reflexivity.
Qed.

(** The backward loop on a list long enough: it returns, keeps the entries
    from [count] on and fills those below by the recurrence. *)
Lemma backward_recurrence (rewards : list Z) (gamma : float) (count : nat) :
  forall return_list : list number,
    (count < length return_list)%nat -> (count <= length rewards)%nat ->
    Forall convertible rewards -> Forall number_ok return_list ->
    exists returns,
      backward count rewards gamma return_list = Returns returns /\
      length returns = length return_list /\
      (forall j : nat, (count <= j)%nat -> returns !! j = return_list !! j) /\
      (forall (t : nat) (r : Z),
          (t < count)%nat -> rewards !! t = Some r ->
          exists g,
            returns !! S t = Some g /\
            returns !! t = Some (Float (to_float (Int r) + gamma * to_float g)%float)).
Proof.
  induction count as [| t' IH]; intros rl Hlen Hrew Hconv Hok.
  - exists rl. cbn. split; [reflexivity | split; [reflexivity | split]].
    + intros j _. reflexivity.
    + intros t r Ht. lia.
  - cbn [backward].
    destruct (getitem_in_range rewards (Z.of_nat t') ltac:(lia)) as (r & Hr & Hgetr).
    destruct (getitem_in_range rl (Z.of_nat t' + 1) ltac:(lia)) as (g & Hg & Hgetg).
    rewrite Nat2Z.id in Hr.
    replace (Z.to_nat (Z.of_nat t' + 1)) with (S t') in Hg by lia.
    unfold list_getitem, list_setitem. rewrite Hgetr. cbn. rewrite Hgetg. cbn.
    rewrite (float_mul_ok gamma g)
      by exact (proj1 (Forall_lookup _ _) Hok _ _ Hg).
    cbn. rewrite (int_add_float_ok r)
      by exact (proj1 (Forall_lookup _ _) Hconv _ _ Hr).
    cbn. rewrite setitem_in_range by lia. cbn. rewrite Nat2Z.id.
    set (v := (to_float (Int r) + gamma * to_float g)%float).
    destruct (IH (<[t' := Float v]> rl)) as (returns & Hrun & Hlen' & Hkeep & Hrec).
    + rewrite length_insert. lia.
    + lia.
    + exact Hconv.
    + apply Forall_insert; [exact Hok | exact I].
    + exists returns. rewrite length_insert in Hlen'.
      split; [exact Hrun | split; [exact Hlen' | split]].
      * intros j Hj. rewrite Hkeep by lia. apply list_lookup_insert_ne. lia.
      * intros t r0 Ht Hr0. destruct (decide (t = t')) as [-> | Hne].
        -- rewrite Hr in Hr0. injection Hr0 as <-. exists g. split.
           ++ rewrite Hkeep by lia. rewrite list_lookup_insert_ne by lia. exact Hg.
           ++ rewrite Hkeep by lia. apply list_lookup_insert_eq. lia.
        -- apply Hrec; [lia | exact Hr0].
Qed.

(** X15. For [MAX_TIME >= 2], a non-empty reward list of at least
    [MAX_TIME - 2] integers that convert to floats, [compute_return_list]
    returns [MAX_TIME - 1] returns: the last one is the last reward, as an
    integer, and every earlier one is the float
    [reward_list[t] + gamma * return_list[t + 1]]. *)
Theorem compute_return_list_recurrence
    (MAX_TIME : Z) (reward_list : list Z) (gamma : float) :
  2 <= MAX_TIME -> reward_list <> [] ->
  MAX_TIME - 2 <= Z.of_nat (length reward_list) ->
  Forall convertible reward_list ->
  exists returns,
    compute_return_list MAX_TIME reward_list gamma = Returns returns /\
    length returns = Z.to_nat (MAX_TIME - 1) /\
    last returns = Int <$> last reward_list /\
    (forall (t : nat) (r : Z),
        Z.of_nat t < MAX_TIME - 2 -> reward_list !! t = Some r ->
        exists g,
          returns !! S t = Some g /\
          returns !! t = Some (Float (to_float (Int r) + gamma * to_float g)%float)).
Proof.
  intros HT Hne Hlen Hconv. unfold compute_return_list.
  destruct (last reward_list) as [r_last |] eqn:Hlast;
    [| apply last_None in Hlast; contradiction].
  rewrite (list_getitem_last reward_list r_last Hlast), bind_returns.
  rewrite list_setitem_last by (rewrite length_replicate; lia).
  rewrite bind_returns, length_replicate.
  set (rl := <[pred (Z.to_nat (MAX_TIME - 1)) := Int r_last]>
               (replicate (Z.to_nat (MAX_TIME - 1)) (Int 0))).
  assert (Hrl : length rl = Z.to_nat (MAX_TIME - 1))
    by (unfold rl; rewrite length_insert, length_replicate; reflexivity).
  assert (Hlast_conv : convertible r_last).
  { rewrite last_lookup in Hlast. exact (proj1 (Forall_lookup _ _) Hconv _ _ Hlast). }
  destruct (backward_recurrence reward_list gamma (Z.to_nat (MAX_TIME - 2)) rl)
    as (returns & Hrun & Hlen' & Hkeep & Hrec).
  - lia.
  - lia.
  - exact Hconv.
  - unfold rl. apply Forall_insert; [| exact Hlast_conv].
    apply Forall_replicate. cbn. unfold convertible, float_overflow_bound.
    vm_compute. reflexivity.
  - exists returns. split; [exact Hrun | split; [lia | split]].
    + rewrite last_lookup, Hlen', Hrl, Hkeep by lia. cbn.
      unfold rl. apply list_lookup_insert_eq. rewrite length_replicate. lia.
    + intros t r Ht Hr. apply Hrec; [lia | exact Hr].
Qed.


Lemma getitem_insert_other {A} (l : list A) (i : Z) (j : nat) (x : A) :
  (forall k, np.axis_index (length l) i = Returns k -> k <> j) ->
  np.getitem (<[j := x]> l) i = np.getitem l i.
Proof.
  intros Hne. unfold np.getitem. rewrite length_insert.
  destruct (np.axis_index (length l) i) as [k | e] eqn:Hk; [| reflexivity].
  cbn. rewrite list_lookup_insert_ne by (specialize (Hne k eq_refl); lia). reflexivity.
Qed.

Lemma backward_insert_other (rewards : list Z) (gamma : float) (j : nat) (x : Z)
    (count : nat) :
  forall return_list : list number,
    (count <= j)%nat -> (j < length rewards)%nat ->
    backward count (<[j := x]> rewards) gamma return_list
    = backward count rewards gamma return_list.
Proof.
  induction count as [| t' IH]; intros rl Hcount Hj; [reflexivity |].
  cbn [backward]. unfold list_getitem.
  rewrite getitem_insert_other.
  - destruct (np.getitem rewards (Z.of_nat t')) as [r | e]; [| reflexivity]. cbn.
    destruct (np.getitem rl (Z.of_nat t' + 1)) as [g | e]; [| reflexivity]. cbn.
    destruct (float_mul gamma g) as [m | e]; [| reflexivity]. cbn.
    destruct (int_add_float r m) as [v | e]; [| reflexivity]. cbn.
    destruct (list_setitem rl (Z.of_nat t') (Float v)) as [rl' | e]; [| reflexivity]. cbn.
    apply IH; lia.
  - intros k Hk. rewrite axis_index_in_range in Hk by lia. injection Hk as <-. lia.
Qed.

(** X17. The reward at index [MAX_TIME - 2] is never read: for a reward
    list of [MAX_TIME >= 2] entries, replacing that entry by any integer
    leaves the result of [compute_return_list] unchanged (the last return
    is the reward at index [MAX_TIME - 1], and the recurrence starts at
    index [MAX_TIME - 3]). *)
Theorem compute_return_list_skips_a_reward
    (MAX_TIME : Z) (reward_list : list Z) (gamma : float) (x : Z) :
  2 <= MAX_TIME -> Z.of_nat (length reward_list) = MAX_TIME ->
  compute_return_list MAX_TIME (<[Z.to_nat (MAX_TIME - 2) := x]> reward_list) gamma
  = compute_return_list MAX_TIME reward_list gamma.
Proof.
  intros HT Hlen. unfold compute_return_list, list_getitem.
  rewrite getitem_insert_other.
  - destruct (np.getitem reward_list (-1)) as [r_last | e]; [| reflexivity].
    rewrite !bind_returns.
    destruct (list_setitem _ (-1) (Int r_last)) as [rl | e]; [| reflexivity].
    rewrite !bind_returns.
    apply backward_insert_other; lia.
  - intros k Hk. unfold np.axis_index in Hk.
    destruct (Z.leb_spec 0 (-1)); [lia |]. cbn [andb] in Hk.
    destruct (Z.leb_spec (- Z.of_nat (length reward_list)) (-1)); [| lia].
    destruct (Z.ltb_spec (-1) 0); [| lia]. cbn in Hk. injection Hk as <-. lia.
Qed.

(** X18. The simulation feeds the returns: for [MAX_TIME >= 2], the reward
    list [run_gridworld] records is accepted by [compute_return_list], which
    returns [MAX_TIME - 1] returns, from any initial state and generator
    state. *)
Theorem returns_of_a_simulation
    (MAX_TIME : Z) (init_state : state) (rs : np.random.RandomState) (gamma : float) :
  2 <= MAX_TIME ->
  exists states actions rewards rs' returns,
    run_gridworld MAX_TIME init_state rs = (Value (states, actions, rewards), rs') /\
    compute_return_list MAX_TIME rewards gamma = Returns returns /\
    length returns = Z.to_nat (MAX_TIME - 1).
Proof.
  intros HT. unfold run_gridworld.
  destruct (run_loop_walk (Z.to_nat MAX_TIME) init_state [] [] [] rs)
    as (states & actions & rewards & final & Hrun & _ & _ & Hlr & _ & Hwalk).
  pose proof (walk_rewards states init_state actions rewards final Hwalk) as Hrs.
  assert (Hconv : Forall convertible rewards)
    by (eapply Forall_impl; [exact Hrs | exact is_reward_convertible]).
  assert (Hne : rewards <> []) by (intros ->; cbn in Hlr; lia).
  destruct (backward_recurrence rewards gamma (Z.to_nat (MAX_TIME - 2))
              (<[pred (Z.to_nat (MAX_TIME - 1)) := Int (default 0 (last rewards))]>
                 (replicate (Z.to_nat (MAX_TIME - 1)) (Int 0))))
    as (returns & Hback & Hlen & _).
  - rewrite length_insert, length_replicate. lia.
  - lia.
  - exact Hconv.
  - apply Forall_insert.
    + apply Forall_replicate. cbn. unfold convertible, float_overflow_bound.
      vm_compute. reflexivity.
    + destruct (last rewards) as [r_last |] eqn:Hlast;
        [| apply last_None in Hlast; contradiction].
      cbn. rewrite last_lookup in Hlast.
      exact (proj1 (Forall_lookup _ _) Hconv _ _ Hlast).
  - exists states, actions, rewards, (np.random.advance (Z.to_nat MAX_TIME) rs), returns.
    split; [exact Hrun | split].
    + unfold compute_return_list.
      destruct (last rewards) as [r_last |] eqn:Hlast;
        [| apply last_None in Hlast; contradiction].
      rewrite (list_getitem_last rewards r_last Hlast), bind_returns.
      rewrite list_setitem_last by (rewrite length_replicate; lia).
      rewrite bind_returns, length_replicate. exact Hback.
    + rewrite Hlen, length_insert, length_replicate. reflexivity.
Qed.

End GridworldFacts.

(** * Properties of the Monte Carlo estimate *)

Section MonteCarloFacts.

Import Gridworld MonteCarlo.

Variable mean_nonempty : list number -> float.

Abbreviation mean := (MonteCarlo.mean mean_nonempty).
Abbreviation fill_means := (MonteCarlo.fill_means mean_nonempty).
Abbreviation est_v_pi := (MonteCarlo.est_v_pi mean_nonempty).

Lemma randint_scalar_grid (rs : np.random.RandomState) :
  exists x, randint_scalar 0 5 rs = (Returns x, np.random.advance 1 rs) /\ 0 <= x < 5.
Proof.
  unfold randint_scalar. destruct (Z.leb_spec 5 0); [lia |].
  eexists. split; [reflexivity |].
  pose proof (Z.mod_pos_bound (np.random.bits rs (np.random.consumed rs)) (5 - 0)
                ltac:(lia)).
  lia.
Qed.


(** The rewards of the kernel, as many as [MAX_TIME >= 2], are accepted. *)
Lemma kernel_rewards_accepted (MAX_TIME : Z) (rewards : list Z) (gamma : float) :
  2 <= MAX_TIME -> Z.of_nat (length rewards) = MAX_TIME -> Forall is_reward rewards ->
  exists returns,
    compute_return_list MAX_TIME rewards gamma = Returns returns /\
    length returns = Z.to_nat (MAX_TIME - 1).
Proof.
  intros HT Hlen Hrs.
  assert (Hconv : Forall convertible rewards)
    by (eapply Forall_impl; [exact Hrs | exact is_reward_convertible]).
  destruct (last rewards) as [r_last |] eqn:Hlast;
    [| apply last_None in Hlast; subst rewards; cbn in Hlen; lia].
  unfold compute_return_list.
  rewrite (list_getitem_last rewards r_last Hlast), bind_returns.
  rewrite list_setitem_last by (rewrite length_replicate; lia).
  rewrite bind_returns, length_replicate.
  destruct (backward_recurrence rewards gamma (Z.to_nat (MAX_TIME - 2))
              (<[pred (Z.to_nat (MAX_TIME - 1)) := Int r_last]>
                 (replicate (Z.to_nat (MAX_TIME - 1)) (Int 0))))
    as (returns & Hback & Hlen' & _).
  - rewrite length_insert, length_replicate. lia.
  - lia.
  - exact Hconv.
  - apply Forall_insert.
    + apply Forall_replicate. cbn. unfold convertible, float_overflow_bound.
      vm_compute. reflexivity.
    + cbn. rewrite last_lookup in Hlast.
      exact (proj1 (Forall_lookup _ _) Hconv _ _ Hlast).
  - exists returns. split; [exact Hback |].
    rewrite Hlen', length_insert, length_replicate. reflexivity.
Qed.

Lemma bin_loop_returns (i : nat) (state_list : list state) (return_list : list number) :
  forall state_bins : gmap state (list number),
    (i < length state_list)%nat -> (i < length return_list)%nat ->
    exists state_bins',
      bin_loop i state_list return_list state_bins = Returns state_bins'.
Proof.
  induction i as [| i IH]; intros state_bins Hs Hr.
  - exists state_bins. reflexivity.
  - cbn [bin_loop]. unfold list_getitem.
    destruct (getitem_in_range state_list (Z.of_nat (S i)) ltac:(lia)) as (s & _ & ->).
    destruct (getitem_in_range return_list (Z.of_nat (S i)) ltac:(lia)) as (g & _ & ->).
    rewrite !bind_returns. apply IH; lia.
Qed.

(** One chain with [MAX_TIME >= 2]: it returns; with [MAX_TIME = 2] it bins
    nothing. *)
Lemma one_chain_returns (MAX_TIME : Z) (state_bins : gmap state (list number))
    (rs : np.random.RandomState) :
  2 <= MAX_TIME ->
  exists state_bins' rs',
    one_chain MAX_TIME state_bins rs = (Done state_bins', rs') /\
    (MAX_TIME = 2 -> state_bins' = state_bins).
Proof.
  intros HT. unfold one_chain.
  destruct (randint_scalar_grid rs) as (x & -> & _).
  destruct (randint_scalar_grid (np.random.advance 1 rs)) as (y & -> & _).
  unfold run_gridworld.
  destruct (run_loop_walk (Z.to_nat MAX_TIME) (x, y) [] [] []
              (np.random.advance 1 (np.random.advance 1 rs)))
    as (states & actions & rewards & final & -> & Hls & _ & Hlr & _ & Hwalk).
  cbn [app].
  destruct (kernel_rewards_accepted MAX_TIME rewards 0.9 HT ltac:(lia)
              (walk_rewards states (x, y) actions rewards final Hwalk))
    as (returns & -> & Hlen).
  destruct (bin_loop_returns (length returns - 1) states returns state_bins
              ltac:(lia) ltac:(lia)) as (state_bins' & Hbin).
  rewrite Hbin. eexists _, _. split; [reflexivity |].
  intros ->. replace (length returns - 1)%nat with 0%nat in Hbin by (cbn in Hlen; lia).
  cbn in Hbin. injection Hbin as <-. reflexivity.
Qed.

Lemma chain_loop_returns (MAX_TIME : Z) (chains : nat) :
  2 <= MAX_TIME ->
  forall (state_bins : gmap state (list number)) (rs : np.random.RandomState),
  exists state_bins' rs',
    chain_loop chains MAX_TIME state_bins rs = (Done state_bins', rs') /\
    (MAX_TIME = 2 -> state_bins' = state_bins).
Proof.
  intros HT. induction chains as [| chains IH]; intros state_bins rs.
  - exists state_bins, rs. split; reflexivity.
  - cbn [chain_loop].
    destruct (one_chain_returns MAX_TIME state_bins rs HT) as (b1 & rs1 & -> & Hb1).
    destruct (IH b1 rs1) as (b2 & rs2 & -> & Hb2).
    exists b2, rs2. split; [reflexivity |].
    intros H2. rewrite (Hb2 H2), (Hb1 H2). reflexivity.
Qed.

Lemma fill_means_cells (state_bins : gmap state (list number)) :
  fill_means state_bins
  = map (fun i => map (fun j => mean (bin state_bins (Z.of_nat i, Z.of_nat j))) (seq 0 5))
        (seq 0 5).
Proof. reflexivity. Qed.

Lemma bin_append_lookup (state_bins : gmap state (list number)) (s0 s : state)
    (g : number) :
  bin (bin_append state_bins s0 g) s
  = if state_eqb s0 s then bin state_bins s ++ [g] else bin state_bins s.
Proof.
  unfold bin, bin_append.
  destruct (state_eqb s0 s) eqn:E.
  - apply state_eqb_eq in E. subst s0. rewrite lookup_insert_eq. reflexivity.
  - apply state_eqb_neq in E. rewrite lookup_insert_ne by exact E. reflexivity.
Qed.

(** The binning loop appends to each bin the returns of the visits of its
    state, from index [i] down to 1. *)
Lemma bin_loop_binned (i : nat) (state_list : list state) (return_list : list number) :
  forall state_bins : gmap state (list number),
    (i < length state_list)%nat -> (i < length return_list)%nat ->
    exists state_bins',
      bin_loop i state_list return_list state_bins = Returns state_bins' /\
      forall s : state,
        bin state_bins' s
        = bin state_bins s
          ++ omap (fun t =>
                     match state_list !! t, return_list !! t with
                     | Some s', Some g => if state_eqb s' s then Some g else None
                     | _, _ => None
                     end)
                  (reverse (seq 1 i)).
Proof.
  induction i as [| i IH]; intros state_bins Hs Hr.
  - exists state_bins. split; [reflexivity |]. intros s. cbn. rewrite app_nil_r.
    reflexivity.
  - cbn [bin_loop]. unfold list_getitem.
    destruct (getitem_in_range state_list (Z.of_nat (S i)) ltac:(lia)) as (s0 & Hs0 & ->).
    destruct (getitem_in_range return_list (Z.of_nat (S i)) ltac:(lia)) as (g & Hg & ->).
    rewrite Nat2Z.id in Hs0, Hg. rewrite !bind_returns.
    destruct (IH (bin_append state_bins s0 g) ltac:(lia) ltac:(lia))
      as (state_bins' & Hrun & Hbins).
    exists state_bins'. split; [exact Hrun |]. intros s.
    rewrite Hbins, bin_append_lookup, seq_S, reverse_app. cbn [reverse Nat.add].
    change (reverse [S i]) with [S i]. cbn [app omap list_omap]. rewrite Hs0, Hg.
    destruct (state_eqb s0 s); [rewrite <- app_assoc |]; reflexivity.
Qed.

(** One chain with [MAX_TIME >= 2] returns, is the first of the simulated
    chains, and appends to each bin what that chain contributes. *)
Lemma one_chain_binned (MAX_TIME : Z) (state_bins : gmap state (list number))
    (rs : np.random.RandomState) :
  2 <= MAX_TIME ->
  exists states returns state_bins' rs',
    one_chain MAX_TIME state_bins rs = (Done state_bins', rs') /\
    (forall chains : nat,
        simulated_chains (S chains) MAX_TIME rs
        = (states, returns) :: simulated_chains chains MAX_TIME rs') /\
    forall s : state,
      bin state_bins' s = bin state_bins s ++ binned_returns s states returns.
Proof.
  intros HT. unfold one_chain. cbn [simulated_chains].
  destruct (randint_scalar_grid rs) as (x & -> & _).
  destruct (randint_scalar_grid (np.random.advance 1 rs)) as (y & -> & _).
  unfold run_gridworld.
  destruct (run_loop_walk (Z.to_nat MAX_TIME) (x, y) [] [] []
              (np.random.advance 1 (np.random.advance 1 rs)))
    as (states & actions & rewards & final & -> & Hls & _ & Hlr & _ & Hwalk).
  cbn [app].
  destruct (kernel_rewards_accepted MAX_TIME rewards 0.9 HT ltac:(lia)
              (walk_rewards states (x, y) actions rewards final Hwalk))
    as (returns & -> & Hlen).
  destruct (bin_loop_binned (length returns - 1) states returns state_bins
              ltac:(lia) ltac:(lia)) as (state_bins' & -> & Hbins).
  eexists states, returns, state_bins', _.
  split; [reflexivity | split; [reflexivity |]].
  intros s. rewrite Hbins. reflexivity.
Qed.

(** The loop over the chains fills each bin with what the simulated chains
    contribute, chain after chain. *)
Lemma chain_loop_binned (MAX_TIME : Z) (chains : nat) :
  2 <= MAX_TIME ->
  forall (state_bins : gmap state (list number)) (rs : np.random.RandomState),
  exists state_bins' rs',
    chain_loop chains MAX_TIME state_bins rs = (Done state_bins', rs') /\
    length (simulated_chains chains MAX_TIME rs) = chains /\
    forall s : state,
      bin state_bins' s
      = bin state_bins s
        ++ concat (map (fun chain => binned_returns s (fst chain) (snd chain))
                       (simulated_chains chains MAX_TIME rs)).
Proof.
  intros HT. induction chains as [| chains IH]; intros state_bins rs.
  - exists state_bins, rs. split; [reflexivity | split; [reflexivity |]].
    intros s. cbn. rewrite app_nil_r. reflexivity.
  - destruct (one_chain_binned MAX_TIME state_bins rs HT)
      as (states & returns & b1 & rs1 & Hone & Hsim & Hb1).
    destruct (IH b1 rs1) as (b2 & rs2 & Hloop & Hlen & Hb2).
    exists b2, rs2. cbn [chain_loop]. rewrite Hone, Hloop, (Hsim chains).
    split; [reflexivity | split; [cbn; rewrite Hlen; reflexivity |]].
    intros s. rewrite Hb2, Hb1. cbn. rewrite <- app_assoc. reflexivity.
Qed.

(** X19. For [MAX_TIME >= 2], [est_v_pi] returns for every number of chains
    and every generator state (no index leaves its list, no action is
    unknown). All [max(NUM_CHAIN, 0)] chains are simulated, and the result
    is the matrix of 5 rows of 5 cells whose cell [(i, j)] is the mean of
    the returns binned for state [(i, j)]: chain after chain, the returns of
    the time steps [MAX_TIME - 2] down to 1 at which the chain was in
    [(i, j)]. *)
Theorem est_v_pi_returns_a_grid
    (NUM_CHAIN MAX_TIME : Z) (rs : np.random.RandomState) :
  2 <= MAX_TIME ->
  let chains := simulated_chains (Z.to_nat NUM_CHAIN) MAX_TIME rs in
  length chains = Z.to_nat NUM_CHAIN /\
  exists rs',
    est_v_pi NUM_CHAIN MAX_TIME rs
    = (Done (map (fun i =>
                    map (fun j =>
                           mean (concat
                                   (map (fun chain =>
                                           binned_returns (Z.of_nat i, Z.of_nat j)
                                             (fst chain) (snd chain))
                                        chains)))
                        (seq 0 5))
                 (seq 0 5)),
       rs').
Proof.
  intros HT. cbv zeta. unfold MonteCarlo.est_v_pi.
  destruct (chain_loop_binned MAX_TIME (Z.to_nat NUM_CHAIN) HT ∅ rs)
    as (state_bins & rs' & -> & Hlen & Hbins).
  split; [exact Hlen |]. exists rs'. rewrite fill_means_cells.
  do 2 f_equal. apply map_ext. intros i. apply map_ext. intros j.
  rewrite Hbins. reflexivity.
Qed.


(** X21. Without chains ([NUM_CHAIN <= 0]), and also with [MAX_TIME = 2]
    whatever the number of chains, no return is ever binned (the binning
    loop runs over the indices [len(return_list) - 1] down to 1) and
    [est_v_pi] returns the matrix whose 25 cells are all NaN. *)
Theorem est_v_pi_all_nan
    (NUM_CHAIN MAX_TIME : Z) (rs : np.random.RandomState) :
  NUM_CHAIN <= 0 \/ MAX_TIME = 2 ->
  fst (est_v_pi NUM_CHAIN MAX_TIME rs) = Done (replicate 5 (replicate 5 nan)).
Proof.
  intros [HN | ->]; unfold MonteCarlo.est_v_pi.
  - replace (Z.to_nat NUM_CHAIN) with 0%nat by lia. reflexivity.
  - destruct (chain_loop_returns 2 (Z.to_nat NUM_CHAIN) ltac:(lia) ∅ rs)
      as (state_bins & rs' & -> & Hsame).
    rewrite (Hsame eq_refl). reflexivity.
Qed.

End MonteCarloFacts.

(** * Further worked instances *)

(** The fifth of five stores into four slots sits in slot [4 mod 4]. *)
Lemma buffer_holds_last_transitions_witness :
  exists slots (self : demo_buffer),
    demo_run 4 five_stores = Returns (slots, self) /\
    slots !! 4%nat = Some (Z.of_nat 4 mod 4) /\
    slot_at self (Z.of_nat 4 mod 4) = Some (cells float32_of_float (demo_transition 4 0)).
Proof.
  apply (buffer_holds_last_transitions float32_of_float (S754_zero false)
           4 demo_space demo_actions five_stores 4 (demo_transition 4 0)).
  - lia.
  - repeat constructor.
  - reflexivity.
  - cbn. lia.
Defined.

(** After three stores into four slots, slot 3 is still zero. *)
Lemma unwritten_slots_hold_zeros_witness :
  exists slots (self : demo_buffer),
    demo_run 4 three_stores = Returns (slots, self) /\
    slot_at self 3 = Some (zero_cells (S754_zero false) demo_space).
Proof.
  apply (unwritten_slots_hold_zeros float32_of_float (S754_zero false)
           4 demo_space demo_actions three_stores 3).
  - lia.
  - repeat constructor.
  - cbn. lia.
Defined.

Lemma sampled_rows_are_stored_transitions_witness :
  exists slots (self : demo_buffer) rs' batch,
    demo_run 4 five_stores = Returns (slots, self) /\
    ReplayBuffer.sample 6 self demo_random = (Returns batch, rs') /\
    forall k : nat,
      (k < Z.to_nat 6)%nat ->
      exists (i : nat) (tr : Transition Z float),
        five_stores !! i = Some tr /\
        Z.of_nat (length five_stores) <= Z.of_nat i + 4 /\
        batch_row batch k = Some (cells float32_of_float tr).
Proof.
  apply (sampled_rows_are_stored_transitions float32_of_float (S754_zero false)
           4 demo_space demo_actions five_stores 6 demo_random).
  - lia.
  - repeat constructor.
  - discriminate.
  - lia.
Defined.

Lemma store_touches_current_slot_only_witness :
  slot_at (snd (store float32_of_float (demo_transition 0 1)
                  (fresh (S754_zero false) 4 demo_space demo_actions))) 2
  = slot_at (fresh (S754_zero false) 4 demo_space demo_actions) 2.
Proof.
  apply (store_touches_current_slot_only float32_of_float (demo_transition 0 1)
           (fresh (S754_zero false) 4 demo_space demo_actions) 2).
  - split; cbn; first [lia | reflexivity | repeat constructor].
  - lia.
  - cbn. lia.
Defined.

(** An action of 2^63 does not fit: the store fails after writing the two
    observations. *)
Lemma failed_store_is_partial_witness :
  let self : demo_buffer := fresh (S754_zero false) 4 demo_space demo_actions in
  let tr := demo_transition 7 (2 ^ 63) in
  fst (store float32_of_float tr self) = Raises OverflowError /\
  ReplayBuffer.observations (snd (store float32_of_float tr self)) !! 0%nat = Some 7 /\
  ReplayBuffer.next_observations (snd (store float32_of_float tr self)) !! 0%nat
  = Some 8 /\
  ReplayBuffer.actions (snd (store float32_of_float tr self)) = ReplayBuffer.actions self /\
  ReplayBuffer.rewards (snd (store float32_of_float tr self)) = ReplayBuffer.rewards self /\
  ReplayBuffer.terminateds (snd (store float32_of_float tr self))
  = ReplayBuffer.terminateds self /\
  ReplayBuffer.current_idx (snd (store float32_of_float tr self))
  = ReplayBuffer.current_idx self /\
  ReplayBuffer.is_full (snd (store float32_of_float tr self)) = ReplayBuffer.is_full self.
Proof.
  cbv zeta.
  refine (failed_store_is_partial float32_of_float (demo_transition 7 (2 ^ 63))
            (fresh (S754_zero false) 4 demo_space demo_actions) _ _).
  - split; cbn; first [lia | reflexivity | repeat constructor].
  - reflexivity.
Defined.

Lemma store_keeps_well_formed_witness :
  wf (snd (store float32_of_float (demo_transition 7 (2 ^ 63))
             (fresh (S754_zero false) 4 demo_space demo_actions))) /\
  ReplayBuffer.buffer_size
    (snd (store float32_of_float (demo_transition 7 (2 ^ 63))
            (fresh (S754_zero false) 4 demo_space demo_actions)))
  = ReplayBuffer.buffer_size (fresh (S754_zero false) 4 demo_space demo_actions).
Proof.
  apply (store_keeps_well_formed float32_of_float (demo_transition 7 (2 ^ 63))
           (fresh (S754_zero false) 4 demo_space demo_actions)).
  split; cbn; first [lia | reflexivity | repeat constructor].
Defined.

(** Six collected steps in the toy world fill the four slots and wrap. *)
Lemma collect_steps_count_witness :
  let result :=
    collect_steps (fun r : float => r) float32_of_float (fun _ : unit => None)
      6 tt 1 0%float 0 demo_world in
  returned (fst result) = true /\
  ReplayBuffer.current_idx (replay_buffer (snd result)) = (0 + Z.of_nat 6) mod 4 /\
  ReplayBuffer.is_full (replay_buffer (snd result)) = (4 <=? 0 + Z.of_nat 6) /\
  ReplayBuffer.buffer_size (replay_buffer (snd result)) = 4.
Proof.
  cbv zeta.
  refine (collect_steps_count (fun r : float => r) float32_of_float
            (fun _ : unit => None) 6 tt 1 0%float 0 demo_world 4 0 _ _ _ _).
  - split; intros; reflexivity.
  - lia.
  - lia.
  - split; [| split; [| split]]; try reflexivity.
    split; cbn; first [lia | reflexivity | repeat constructor].
Defined.

Lemma get_reward_state_stays_legal_witness :
  exists (r : Z) (s' : Gridworld.state),
    Gridworld.get_reward_state (0, 0) "S" = Gridworld.Value (r, s') /\
    Gridworld.is_legal_state s' = true /\ Gridworld.is_reward r.
Proof.
  apply (get_reward_state_stays_legal (0, 0) "S").
  - reflexivity.
  - right. left. reflexivity.
Defined.

(** Walking south off the grid: refused, reward -1. *)
Lemma get_reward_state_rewards_witness :
  (-1 = 10 <-> (0, 0) = (1, 4)) /\ (-1 = 5 <-> (0, 0) = (3, 4)) /\
  (-1 = -1 <-> (0, 0) = (0, 0)) /\ Gridworld.is_reward (-1).
Proof.
  apply (get_reward_state_rewards (0, 0) (0, 0) "S" (-1)). reflexivity.
Defined.

Lemma get_reward_state_unknown_action_witness :
  Gridworld.get_reward_state (0, 0) "X" = Gridworld.UnboundLocalError /\
  Gridworld.get_reward_state (1, 4) "X" = Gridworld.Value (10, (1, 0)).
Proof.
  assert (Hx : ~ Gridworld.is_action "X")
    by (intros [H | [H | [H | H]]]; discriminate H).
  split.
  - exact (get_reward_state_unknown_action (0, 0) "X" Hx).
  - exact (get_reward_state_unknown_action (1, 4) "X" Hx).
Defined.

Lemma run_gridworld_stays_legal_witness :
  exists states actions rewards rs',
    Gridworld.run_gridworld 6 (1, 3) demo_random
    = (Gridworld.Value (states, actions, rewards), rs') /\
    Forall (fun s => Gridworld.is_legal_state s = true) states /\
    Forall Gridworld.is_reward rewards.
Proof.
  apply (run_gridworld_stays_legal 6 (1, 3) demo_random). reflexivity.
Defined.

Lemma compute_return_list_recurrence_witness :
  exists returns,
    Gridworld.compute_return_list 5 [1; 2; 3; 4; 5] 0.9 = Returns returns /\
    length returns = Z.to_nat (5 - 1) /\
    last returns = Gridworld.Int <$> last [1; 2; 3; 4; 5] /\
    (forall (t : nat) (r : Z),
        Z.of_nat t < 5 - 2 -> [1; 2; 3; 4; 5] !! t = Some r ->
        exists g,
          returns !! S t = Some g /\
          returns !! t
          = Some (Gridworld.Float (Gridworld.to_float (Gridworld.Int r)
                                   + 0.9 * Gridworld.to_float g)%float)).
Proof.
  apply (compute_return_list_recurrence 5 [1; 2; 3; 4; 5] 0.9).
  - lia.
  - discriminate.
  - cbn. lia.
  - repeat constructor.
Defined.


Lemma compute_return_list_skips_a_reward_witness :
  Gridworld.compute_return_list 5 (<[Z.to_nat (5 - 2) := 400]> [1; 2; 3; 4; 5]) 0.9
  = Gridworld.compute_return_list 5 [1; 2; 3; 4; 5] 0.9.
Proof.
  apply (compute_return_list_skips_a_reward 5 [1; 2; 3; 4; 5] 0.9 400).
  - lia.
  - reflexivity.
Defined.

Lemma returns_of_a_simulation_witness :
  exists states actions rewards rs' returns,
    Gridworld.run_gridworld 6 (1, 3) demo_random
    = (Gridworld.Value (states, actions, rewards), rs') /\
    Gridworld.compute_return_list 6 rewards 0.9 = Returns returns /\
    length returns = Z.to_nat (6 - 1).
Proof.
  apply (returns_of_a_simulation 6 (1, 3) demo_random 0.9). lia.
Defined.

Lemma est_v_pi_returns_a_grid_witness :
  length (simulated_chains (Z.to_nat 3) 6 demo_random) = Z.to_nat 3 /\
  exists rs',
    MonteCarlo.est_v_pi sequential_mean 3 6 demo_random
    = (MonteCarlo.Done
         (map (fun i =>
                 map (fun j =>
                        MonteCarlo.mean sequential_mean
                          (concat
                             (map (fun chain =>
                                     binned_returns (Z.of_nat i, Z.of_nat j)
                                       (fst chain) (snd chain))
                                  (simulated_chains (Z.to_nat 3) 6 demo_random))))
                     (seq 0 5))
              (seq 0 5)),
       rs').
Proof.
  apply (est_v_pi_returns_a_grid sequential_mean 3 6 demo_random). lia.
Defined.

(** In that run of three chains of 6 steps, the bin of state [(0, 4)] holds
    the returns of the third chain at the steps 4, 3 and 2, in that order, and
    the bin of [(1, 0)], a state no chain visits, is empty. *)
Lemma demo_chains_binned_returns :
  concat (map (fun chain => binned_returns (0, 4) (fst chain) (snd chain))
              (simulated_chains 3 6 demo_random))
  = [Gridworld.Int (-1); Gridworld.Float (-1.8999999999999999);
     Gridworld.Float (-2.71)] /\
  concat (map (fun chain => binned_returns (1, 0) (fst chain) (snd chain))
              (simulated_chains 3 6 demo_random))
  = [].
Proof.
  split; vm_compute; reflexivity.
Qed.


Lemma est_v_pi_all_nan_witness :
  fst (MonteCarlo.est_v_pi sequential_mean 3 2 demo_random)
  = MonteCarlo.Done (replicate 5 (replicate 5 nan)).
Proof.
  apply (est_v_pi_all_nan sequential_mean 3 2 demo_random). right. reflexivity.
Defined.
